(** * SEO audit backend: the page-analysis pipeline of [api/audit.js]

    A shallow embedding of the [POST /api/analyze] handler and of the
    closures it defines (heading detection, scoring, auxiliary probes,
    recommendations), followed by the properties the specification states
    about them.

    Conventions of the embedding.
    - A JavaScript string is a [string]: a sequence of code units taken in
      the range 0..255.
    - A JavaScript number that can carry a fraction is a binary64 [float];
      counts and integer scores are [Z] (they stay far below 2^53, where
      binary64 arithmetic on integers is exact).
    - The libraries the handler delegates to (cheerio, axios, the platform's
      [URL], [RegExp] constructor, [JSON.parse], fast-xml-parser) are not
      part of the repository: they are the fields of [Platform] and [World].
    - Time passes in the network calls only: each call takes a number of
      milliseconds that the network decides and the time-out of the call
      bounds, and the 30 s [setTimeout] guard of the handler is read
      against their sum.
    - [console.log] output is not modelled. *)

From Stdlib Require Import String Ascii List NArith ZArith QArith Qround Qabs Bool Lia Floats.
From Stdlib Require Import DecimalString.
Import ListNotations.

Local Open Scope string_scope.
Local Open Scope Z_scope.

(* ===================================================================== *)
(** ** JavaScript strings *)
(* ===================================================================== *)

Module JsString.

Definition code (c : ascii) : nat := nat_of_ascii c.

(** [\s] of a JavaScript regular expression (WhiteSpace and
    LineTerminator), which is also what [trim] removes: TAB, LF, VT, FF,
    CR, SPACE and NBSP are the members below U+0100. *)
Definition isWhiteSpace (c : ascii) : bool :=
  let n := code c in
  ((9 <=? n) && (n <=? 13) || (n =? 32) || (n =? 160))%nat.

Definition isDigit (c : ascii) : bool :=
  let n := code c in ((48 <=? n) && (n <=? 57))%nat.

(** [toLowerCase] on one code unit: A-Z, and the Latin-1 capitals
    U+00C0..U+00DE except the multiplication sign U+00D7. *)
Definition lowerChar (c : ascii) : ascii :=
  let n := code c in
  if ((65 <=? n) && (n <=? 90))%nat then ascii_of_nat (n + 32)
  else if ((192 <=? n) && (n <=? 222) && negb (n =? 215))%nat
       then ascii_of_nat (n + 32)
  else c.

Fixpoint toLowerCase (s : string) : string :=
  match s with
  | EmptyString => EmptyString
  | String c r => String (lowerChar c) (toLowerCase r)
  end.

(** Case folding of the [i] flag for a pattern character that is an ASCII
    letter, digit or punctuation sign: only the two ASCII cases of a letter
    fold together (no code unit above U+007F folds onto an ASCII one). *)
Definition ciEq (p c : ascii) : bool :=
  let fold a := let n := code a in
                if ((97 <=? n) && (n <=? 122))%nat then ascii_of_nat (n - 32)
                else a in
  Ascii.eqb (fold p) (fold c).

(** [s.startsWith(p)], returning what follows the prefix. *)
Fixpoint afterPrefix (p s : string) : option string :=
  match p, s with
  | EmptyString, _ => Some s
  | String _ _, EmptyString => None
  | String a p', String b s' =>
      if Ascii.eqb a b then afterPrefix p' s' else None
  end.

Definition startsWith (s p : string) : bool :=
  match afterPrefix p s with Some _ => true | None => false end.

(** The same, under the [i] flag. *)
Fixpoint afterPrefixCi (p s : string) : option string :=
  match p, s with
  | EmptyString, _ => Some s
  | String _ _, EmptyString => None
  | String a p', String b s' =>
      if ciEq a b then afterPrefixCi p' s' else None
  end.

(** [s.includes(p)]. *)
Fixpoint includes (s p : string) : bool :=
  startsWith s p ||
  match s with
  | EmptyString => false
  | String _ r => includes r p
  end.

(** What follows the first occurrence of [p] in [s]. *)
Fixpoint afterFirst (p s : string) : option string :=
  match afterPrefix p s with
  | Some r => Some r
  | None => match s with
            | EmptyString => None
            | String _ r => afterFirst p r
            end
  end.

Fixpoint afterFirstCi (p s : string) : option string :=
  match afterPrefixCi p s with
  | Some r => Some r
  | None => match s with
            | EmptyString => None
            | String _ r => afterFirstCi p r
            end
  end.

(** [s.split(sep)[0]] for a non-empty [sep]: the part before the first
    occurrence, the whole string when there is none. *)
Fixpoint beforeFirst (sep s : string) : string :=
  if startsWith s sep then EmptyString
  else match s with
       | EmptyString => EmptyString
       | String c r => String c (beforeFirst sep r)
       end.

Fixpoint trimStart (s : string) : string :=
  match s with
  | String c r => if isWhiteSpace c then trimStart r else s
  | EmptyString => EmptyString
  end.

Fixpoint allWhiteSpace (s : string) : bool :=
  match s with
  | EmptyString => true
  | String c r => isWhiteSpace c && allWhiteSpace r
  end.

Fixpoint trimEnd (s : string) : string :=
  match s with
  | EmptyString => EmptyString
  | String c r => if allWhiteSpace s then EmptyString else String c (trimEnd r)
  end.

Definition trim (s : string) : string := trimEnd (trimStart s).

(** [s.split(sep)] for a one-character separator. *)
Fixpoint splitChar (sep : ascii) (s : string) : list string :=
  match s with
  | EmptyString => [EmptyString]
  | String c r =>
      if Ascii.eqb c sep then EmptyString :: splitChar sep r
      else match splitChar sep r with
           | w :: ws => String c w :: ws
           | [] => [String c EmptyString]
           end
  end.

(** [s.split(/\s+/)]: the pieces between maximal runs of white space; a
    leading or trailing run leaves an empty first or last piece, and the
    empty string gives one empty piece.  [inRun] tells that the previous
    character belonged to a run, whose piece boundary is already laid. *)
Fixpoint splitWsFrom (inRun : bool) (s : string) : list string :=
  match s with
  | EmptyString => [EmptyString]
  | String c r =>
      if isWhiteSpace c then
        if inRun then splitWsFrom true r
        else EmptyString :: splitWsFrom true r
      else match splitWsFrom false r with
           | w :: ws => String c w :: ws
           | [] => [String c EmptyString]
           end
  end.

Definition splitWs (s : string) : list string := splitWsFrom false s.

(** The first [n] code units: [s.substring(0, n)]. *)
Fixpoint take (n : nat) (s : string) : string :=
  match n, s with
  | S k, String c r => String c (take k r)
  | _, _ => EmptyString
  end.

(** A string is truthy when it is not empty. *)
Definition truthy (s : string) : bool :=
  match s with EmptyString => false | _ => true end.

End JsString.

(* ===================================================================== *)
(** ** Regular expressions of the handler

    Every regular expression literal of the handler is embedded as a
    function giving, for the text that starts at the current position, the
    length of the match found there (the backtracking search of each
    pattern is deterministic, as the comment of each says).  The drivers
    below are [String.prototype.match] and [String.prototype.replace] for a
    pattern with the [g] flag: the search resumes where the last match
    ended ([lastIndex]), one code unit further after an empty match. *)
(* ===================================================================== *)

Module Regex.
Import JsString.

Definition matcher := string -> option nat.

(** [skip] is the number of code units at the front that the previous
    match still covers. *)
Fixpoint matchAllFrom (m : matcher) (skip : nat) (s : string) : list string :=
  match s with
  | EmptyString =>
      match skip, m EmptyString with
      | O, Some _ => [EmptyString]
      | _, _ => []
      end
  | String _ r =>
      match skip with
      | S k => matchAllFrom m k r
      | O => match m s with
             | Some n => take n s :: matchAllFrom m (Nat.pred n) r
             | None => matchAllFrom m O r
             end
      end
  end.

(** [s.match(re) || []] for a global [re]. *)
Definition matchAll (m : matcher) (s : string) : list string :=
  matchAllFrom m O s.

Fixpoint removeAllFrom (m : matcher) (skip : nat) (s : string) : string :=
  match s with
  | EmptyString => EmptyString
  | String c r =>
      match skip with
      | S k => removeAllFrom m k r
      | O => match m s with
             | Some (S k) => removeAllFrom m k r
             | Some O | None => String c (removeAllFrom m O r)
             end
      end
  end.

(** [s.replace(re, '')] for a global [re]. *)
Definition removeAll (m : matcher) (s : string) : string :=
  removeAllFrom m O s.

(** Length of the part of [s] consumed when [rest] is what remains. *)
Definition consumed (s rest : string) : nat :=
  (String.length s - String.length rest)%nat.

(** What follows the first [>] of [s]. *)
Fixpoint afterGt (s : string) : option string :=
  match s with
  | EmptyString => None
  | String c r => if Ascii.eqb c ">" then Some r else afterGt r
  end.

(** [/<hN[^>]*>[\s\S]*?<\/hN>/gi] at the current position, [N] being the
    digit [lvl].  [[^>]*] followed by [>] can only stop at the first [>]
    after the tag name; the lazy [[\s\S]*?] followed by the closing tag
    stops at the first closing tag after that. *)
Definition headingAt (lvl : ascii) : matcher := fun s =>
  match afterPrefixCi (String "<" (String "h" (String lvl EmptyString))) s with
  | None => None
  | Some r1 =>
      match afterGt r1 with
      | None => None
      | Some r2 =>
          match afterFirstCi
                  (String "<" (String "/" (String "h" (String lvl (String ">" EmptyString)))))
                  r2 with
          | None => None
          | Some r3 => Some (consumed s r3)
          end
      end
  end.

(** [/<hN/gi] at the current position. *)
Definition openTagAt (lvl : ascii) : matcher := fun s =>
  match afterPrefixCi (String "<" (String "h" (String lvl EmptyString))) s with
  | None => None
  | Some _ => Some 3%nat
  end.

(** [/<!--[\s\S]*?-->/g] at the current position. *)
Definition commentAt : matcher := fun s =>
  match afterPrefix "<!--" s with
  | None => None
  | Some r1 =>
      match afterFirst "-->" r1 with
      | None => None
      | Some r2 => Some (consumed s r2)
      end
  end.

(** Length of [s] up to and including its first [>], the whole length when
    it has none. *)
Fixpoint throughGt (s : string) : nat :=
  match s with
  | EmptyString => O
  | String c r => if Ascii.eqb c ">" then 1%nat else S (throughGt r)
  end.

(** [/<\/?[^>]+(>|$)/g] at the current position: a [<] followed by at
    least one code unit other than [>] (an optional [/] that cannot be
    followed by one is given back to [[^>]+]), up to the first [>] or
    the end of the text. *)
Definition tagAt : matcher := fun s =>
  match s with
  | String "<" (String c r as body) =>
      if Ascii.eqb c ">" then None else Some (S (throughGt body))
  | _ => None
  end.

Definition isTitleSeparator (c : ascii) : bool :=
  Ascii.eqb c "|" || Ascii.eqb c "-" || Ascii.eqb c ".".

Fixpoint dropSeparators (s : string) : string :=
  match s with
  | String c r => if isTitleSeparator c then dropSeparators r else s
  | EmptyString => EmptyString
  end.

(** [/[\|\-\.]+\s*$/] at the current position: one separator or more,
    then white space up to the end of the text. *)
Definition trailingSeparatorsAt (s : string) : bool :=
  match s with
  | String c _ => isTitleSeparator c && allWhiteSpace (dropSeparators s)
  | EmptyString => false
  end.

(** [s.replace(/[\|\-\.]+\s*$/, '')]: the leftmost match runs to the end
    of the text, so what is left is what precedes it. *)
Fixpoint removeTrailingSeparators (s : string) : string :=
  if trailingSeparatorsAt s then EmptyString
  else match s with
       | EmptyString => EmptyString
       | String c r => String c (removeTrailingSeparators r)
       end.

Fixpoint takeDigits (s : string) : string :=
  match s with
  | String c r => if isDigit c then String c (takeDigits r) else EmptyString
  | EmptyString => EmptyString
  end.

(** [s.match(/max-age=(\d+)/)]: the capture group of the leftmost match. *)
Fixpoint maxAgeDigits (s : string) : option string :=
  match afterPrefix "max-age=" s with
  | Some r =>
      match takeDigits r with
      | EmptyString =>
          match s with
          | EmptyString => None
          | String _ r' => maxAgeDigits r'
          end
      | ds => Some ds
      end
  | None =>
      match s with
      | EmptyString => None
      | String _ r' => maxAgeDigits r'
      end
  end.

End Regex.

Import JsString Regex.

(* ===================================================================== *)
(** ** JavaScript numbers *)
(* ===================================================================== *)

Module JsNumber.

(** The Number nearest to an integer (the integer itself below 2^53). *)
Definition ofZ (z : Z) : float :=
  SF2Prim (binary_normalize prec emax z 0 false).

Definition ofNat (n : nat) : float := ofZ (Z.of_nat n).

(** [Math.round]: a value that is not finite or is already integral is
    returned as it is; otherwise the nearest integer, the one towards
    +infinity on a tie, and -0 for a value in [-0.5, 0). *)
Definition Math_round (x : float) : float :=
  match Prim2SF x with
  | S754_finite s m e =>
      if 0 <=? e then x
      else let v := if s then Z.neg m else Z.pos m in
           let k := (2 * v + 2 ^ (- e)) / 2 ^ (1 - e) in
           if k =? 0 then (if s then neg_zero else zero) else ofZ k
  | _ => x
  end.

(** Truthiness of a Number: neither zero nor NaN. *)
Definition truthy (x : float) : bool :=
  negb (is_nan x) && negb (is_zero x).

Fixpoint digitsValue (acc : Z) (s : string) : Z :=
  match s with
  | String c r =>
      if JsString.isDigit c
      then digitsValue (10 * acc + Z.of_nat (JsString.code c - 48)) r
      else acc
  | EmptyString => acc
  end.

(** [parseInt(s, 10)]: leading white space, an optional sign, then the
    longest run of decimal digits; [None] is NaN (no digit there). *)
Definition parseInt (s : string) : option Z :=
  let t := JsString.trimStart s in
  let '(neg, body) :=
    match t with
    | String "-" r => (true, r)
    | String "+" r => (false, r)
    | _ => (false, t)
    end in
  match body with
  | String c _ =>
      if JsString.isDigit c
      then Some (if neg then - digitsValue 0 body else digitsValue 0 body)
      else None
  | EmptyString => None
  end.

End JsNumber.

Import JsNumber.

(* ===================================================================== *)
(** ** The libraries behind the handler *)
(* ===================================================================== *)

(** An element of a cheerio selection: its attributes, text content
    ([.text()]) and inner markup ([.html()]). *)
Record Element := mkElement {
  attrs : list (string * string);
  textContent : string;
  innerHtml : string
}.

(** [$], the query function of a loaded document: a selector gives the
    matched elements in document order.  Selectors are the very strings the
    handler passes. *)
Definition Cheerio := string -> list Element.

Fixpoint lookup (k : string) (m : list (string * string)) : option string :=
  match m with
  | [] => None
  | (k', v) :: r => if String.eqb k k' then Some v else lookup k r
  end.

(** [$(el).attr(name)], [None] being [undefined]. *)
Definition attr (name : string) (el : Element) : option string :=
  lookup name (attrs el).

(** [sel.attr(name)]: the attribute of the first matched element. *)
Definition selAttr (name : string) (sel : list Element) : option string :=
  match sel with
  | [] => None
  | el :: _ => attr name el
  end.

(** [sel.text()]: the text of all matched elements, concatenated. *)
Definition selText (sel : list Element) : string :=
  String.concat "" (map textContent sel).

(** [v || ''] for an optional string. *)
Definition orEmpty (v : option string) : string :=
  match v with Some s => s | None => "" end.

(** Truthiness of an optional string. *)
Definition truthyOpt (v : option string) : bool :=
  match v with Some s => JsString.truthy s | None => false end.

(** The parts of a parsed [URL] the handler reads. *)
Record URL := mkURL { hostname : string; pathname : string }.

(** What fast-xml-parser leaves at [parsed.urlset.url]. *)
Inductive UrlsetUrl :=
| UrlAbsent                 (* undefined, or any falsy value *)
| UrlSingle                 (* one entry, not an array *)
| UrlArray (n : nat).       (* an array of [n] entries *)

Record Platform := mkPlatform {
  (** [cheerio.load(html)], queried with a selector that is well formed, as
      those are that the source writes out *)
  cheerio_load : string -> Cheerio;
  (** [new URL(u)]; [None] when it throws *)
  URL_parse : string -> option URL;
  (** [new URL(rel, base).href]; [None] when it throws *)
  URL_href : string -> string -> option string;
  (** [new RegExp(p, 'gi')], given as the number of matches that
      [text.match(re)] finds, or the message of the SyntaxError that the
      constructor throws *)
  RegExp_gi : string -> (string -> nat) + string;
  (** whether [JSON.parse(text)] returns *)
  JSON_parses : string -> bool;
  (** [new XMLParser().parse(xml)] read at [.urlset.url]; [None] when it
      throws *)
  XMLParser_parse : string -> option UrlsetUrl;
  (** the same, for a body that axios delivers as a parsed JSON value,
      given by its JSON text *)
  XMLParser_parse_value : string -> option UrlsetUrl;
  (** the message of the error that [$(selector)] throws when the selector
      cannot be parsed; [None] for a selector that is well formed *)
  Selector_error : string -> option string;
  (** the message of the error thrown when a parsed JSON value, given by
      its JSON text, is taken for markup: by [cheerio.load], by
      [response.data.length] or, at the latest, by [htmlContent.match] *)
  Markup_error : string -> string;
  (** the message of the TypeError of [res.data.split] on a parsed JSON
      value, given by its JSON text *)
  Split_error : string -> string
}.

(** An HTTP response; header names are lower-case, and [data] is the body
    as text. *)
Record Response := mkResponse {
  status : Z;
  statusText : string;
  headers : list (string * string);
  data : string
}.

(** A request that got no response: the error's [code] and [message]. *)
Record NetworkError := mkNetworkError {
  code : string;
  message : string
}.

(** What axios reports for a call.  A body that is a JSON text is parsed
    by axios before the handler sees it: [Responded r] is a response whose
    [response.data] is the text [data r], and [RespondedJson r] one whose
    body [data r] is a JSON text of a value that is not a string, so that
    [response.data] is that value and not a string.  A call that axios
    gives up on at its time-out is [Unreachable], like every request that
    got no response. *)
Inductive Outcome :=
| Responded (r : Response)
| Unreachable (e : NetworkError)
| RespondedJson (r : Response).

(** The network as the handler sees it during one request: what each call
    meets, and the milliseconds it takes. *)
Record World := mkWorld {
  http_get : string -> Outcome;
  http_head : string -> Outcome;
  get_ms : string -> N;
  head_ms : string -> N
}.

(* ===================================================================== *)
(** ** Heading detection (methods 1, 2 and 5, and the raw tag counts)

    Methods 3 and 4 of the source only write to the console. *)
(* ===================================================================== *)

Record HeadingProfile := mkHeadingProfile {
  h1Count : nat;
  h2Count : nat;
  h3Count : nat;
  h4Count : nat;
  h5Count : nat;
  h6Count : nat;
  h1Text : string
}.

(** Method 1: [$('hN').length]. *)
Definition cheerioCount (dollar : Cheerio) (lvl : ascii) : nat :=
  List.length (dollar (String "h" (String lvl EmptyString))).

(** Method 2: [htmlContent.match(hNRegex) || []]. *)
Definition regexMatches (lvl : ascii) (htmlContent : string) : list string :=
  matchAll (headingAt lvl) htmlContent.

(** Method 5: the same pattern on the markup without its comments. *)
Definition strippedHtml (htmlContent : string) : string :=
  removeAll commentAt htmlContent.

Definition bruteMatches (lvl : ascii) (htmlContent : string) : list string :=
  matchAll (headingAt lvl) (strippedHtml htmlContent).

(** The update of [hNCountCheerio] at the end of method 5. *)
Definition foldBrute (cheerioN regexN bruteN : nat) : nat :=
  if ((cheerioN <? bruteN) && (regexN <? bruteN))%nat then bruteN else cheerioN.

(** [(htmlContent.match(/<hN/gi) || []).length]. *)
Definition rawCount (lvl : ascii) (htmlContent : string) : nat :=
  List.length (matchAll (openTagAt lvl) htmlContent).

(** [h1Matches[0].replace(/<\/?[^>]+(>|$)/g, '').trim()]. *)
Definition stripTags (m : string) : string :=
  JsString.trim (removeAll tagAt m).

Definition detectHeadings (dollar : Cheerio) (htmlContent : string) : HeadingProfile :=
  let h1Matches := regexMatches "1" htmlContent in
  let h2Matches := regexMatches "2" htmlContent in
  let h3Matches := regexMatches "3" htmlContent in
  let h4Matches := regexMatches "4" htmlContent in
  let h5Matches := regexMatches "5" htmlContent in
  let h6Matches := regexMatches "6" htmlContent in
  let h1CountCheerio :=
    foldBrute (cheerioCount dollar "1") (List.length h1Matches)
              (List.length (bruteMatches "1" htmlContent)) in
  let h2CountCheerio :=
    foldBrute (cheerioCount dollar "2") (List.length h2Matches)
              (List.length (bruteMatches "2" htmlContent)) in
  let rawH2Count := rawCount "2" htmlContent in
  let rawH3Count := rawCount "3" htmlContent in
  let h1Count := Nat.max h1CountCheerio (List.length h1Matches) in
  let h2Count := Nat.max (Nat.max h2CountCheerio (List.length h2Matches)) rawH2Count in
  let h3Count := Nat.max (Nat.max (cheerioCount dollar "3") (List.length h3Matches)) rawH3Count in
  let h4Count := Nat.max (cheerioCount dollar "4") (List.length h4Matches) in
  let h5Count := Nat.max (cheerioCount dollar "5") (List.length h5Matches) in
  let h6Count := Nat.max (cheerioCount dollar "6") (List.length h6Matches) in
  let h1Text :=
    match h1Matches with
    | m :: _ => if (0 <? h1Count)%nat && JsString.truthy m then stripTags m else ""
    | [] => ""
    end in
  mkHeadingProfile h1Count h2Count h3Count h4Count h5Count h6Count h1Text.

(* ===================================================================== *)
(** ** Pure extractors and the scorer *)
(* ===================================================================== *)

Set Warnings "-inexact-float".

(** A double quote, and a quoted attribute value of a selector. *)
Definition dq : string := String "034" EmptyString.
Definition quoted (s : string) : string := dq ++ s ++ dq.

Definition natToString (n : nat) : string :=
  NilEmpty.string_of_uint (Nat.to_uint n).

Definition zToString (z : Z) : string :=
  NilZero.string_of_int (Z.to_int z).

(** The title, without the tool's own name and the separators before it. *)
Definition cleanTitle (title : string) : string :=
  if includes title "SEO Audit Tool"
  then trim (removeTrailingSeparators (trim (beforeFirst "SEO Audit Tool" title)))
  else title.

Definition stopWords : list string := ["and"; "the"; "for"; "with"].

Definition potentialKeywords (title : string) : list string :=
  filter (fun word => negb (existsb (String.eqb word) stopWords))
    (filter (fun word => (3 <? String.length word)%nat)
       (splitWs (toLowerCase title))).

(** [bodyText.split(/\s+/).length || 1]. *)
Definition wordCount (bodyText : string) : nat :=
  let n := List.length (splitWs bodyText) in
  if (n =? 0)%nat then 1%nat else n.

(** [(matches.length / wordCount) * 100]. *)
Definition density (matches words : nat) : float :=
  (ofNat matches / ofNat words * 100)%float.

Record ResourceHints := mkResourceHints {
  hasPreload : bool;
  hasPreconnect : bool;
  hasDnsPrefetch : bool;
  totalResourceHints : nat
}.

Definition checkResourceHints (dollar : Cheerio) : ResourceHints :=
  let n sel := List.length (dollar sel) in
  mkResourceHints
    (0 <? n ("link[rel=" ++ quoted "preload" ++ "]"))%nat
    (0 <? n ("link[rel=" ++ quoted "preconnect" ++ "]"))%nat
    (0 <? n ("link[rel=" ++ quoted "dns-prefetch" ++ "]"))%nat
    (n ("link[rel=" ++ quoted "preload" ++ "], link[rel=" ++ quoted "preconnect"
        ++ "], link[rel=" ++ quoted "dns-prefetch" ++ "]")).

(** [analyzeImageOptimization] and [analyzeURLStructure] are run by the
    handler, which leaves their results out of the reply. *)
Record ImageOptimization := mkImageOptimization {
  total : nat;
  withLazy : nat;
  withSrcset : nat
}.

Definition analyzeImageOptimization (dollar : Cheerio) : ImageOptimization :=
  let imgs := dollar "img" in
  mkImageOptimization
    (List.length imgs)
    (List.length (filter (fun img => match attr "loading" img with
                                     | Some v => String.eqb v "lazy"
                                     | None => false
                                     end) imgs))
    (List.length (filter (fun img => truthyOpt (attr "srcset" img)) imgs)).

Record URLStructure := mkURLStructure {
  clean : bool;
  lenOk : bool;
  score : Z
}.

Definition analyzeURLStructure (P : Platform) (u : string) : URLStructure :=
  match URL_parse P u with
  | Some parsed =>
      let path := pathname parsed in
      let clean := String.eqb (toLowerCase path) path && negb (includes path "_") in
      let lenOk := (String.length path <? 100)%nat in
      mkURLStructure clean lenOk ((if clean then 50 else 0) + (if lenOk then 50 else 0))
  | None => mkURLStructure false false 0
  end.

(** The six flags of a security-header profile. *)
Record SecurityHeaderFlags := mkSecurityHeaderFlags {
  hasXFrameOptions : bool;
  hasContentSecurityPolicy : bool;
  hasXXSSProtection : bool;
  hasStrictTransportSecurity : bool;
  hasReferrerPolicy : bool;
  hasPermissionsPolicy : bool
}.

(** What [checkSecurityHeaders] returns: an object with the six flags, or
    the empty object [{}] ([None]). *)
Definition SecurityHeaders := option SecurityHeaderFlags.

(** [securityHeaders.field]: [None] is [undefined]. *)
Definition readFlag (field : SecurityHeaderFlags -> bool) (sh : SecurityHeaders)
  : option bool :=
  option_map field sh.

(** [Boolean(securityHeaders.field)]. *)
Definition flagValue (field : SecurityHeaderFlags -> bool) (sh : SecurityHeaders)
  : bool :=
  match readFlag field sh with Some b => b | None => false end.

Definition securityFlags : list (SecurityHeaderFlags -> bool) :=
  [hasXFrameOptions; hasContentSecurityPolicy; hasXXSSProtection;
   hasStrictTransportSecurity; hasReferrerPolicy; hasPermissionsPolicy].

Definition calculateTechnicalScore (hasSSL hasMobileViewport : bool)
    (canonicalUrl robotsMeta : string) (resourceHints : ResourceHints)
    (securityHeaders : SecurityHeaders) : Z :=
  let score := 0 in
  let score := if hasSSL then score + 20 else score in
  let score := if hasMobileViewport then score + 15 else score in
  let score := if JsString.truthy canonicalUrl then score + 10 else score in
  let score := if negb (includes robotsMeta "noindex") then score + 15 else score in
  let score := if negb (totalResourceHints resourceHints =? 0)%nat then score + 10 else score in
  let score := if flagValue hasContentSecurityPolicy securityHeaders then score + 10 else score in
  Z.min score 100.

Definition calculateContentScore (textToCodeRatio : float) (h1Count h2Count : nat)
    (keywordDensity : float) : Z :=
  let score := 0 in
  let score := if (0.1 <? textToCodeRatio)%float then score + 20 else score in
  let score := if (h1Count =? 1)%nat then score + 20 else score in
  let score := if (2 <=? h2Count)%nat then score + 10 else score in
  let score := if ((0.5 <? keywordDensity) && (keywordDensity <? 5))%float
               then score + 10 else score in
  Z.min score 100.

(** [Math.max(100 - (scriptCount + cssCount) * 2, 0)]. *)
Definition calculatePerformanceScore (scriptCount cssCount : nat) : Z :=
  Z.max (100 - Z.of_nat (scriptCount + cssCount) * 2) 0.

Definition calculateWeightedScore (technical content performance : Z) : float :=
  Math_round (ofZ technical * 0.4 + ofZ content * 0.4 + ofZ performance * 0.2)%float.

(** The specification's reading of the overall score: the integer nearest
    to the exact weighted sum. *)
Definition roundNearest (q : Q) : Z := Qfloor (q + (1 # 2))%Q.

Definition weightedSum (technical content performance : Z) : Q :=
  (0.4 * inject_Z technical + 0.4 * inject_Z content
   + 0.2 * inject_Z performance)%Q.

Definition weightedExact (technical content performance : Z) : Z :=
  roundNearest (weightedSum technical content performance).

Inductive HreflangInfo :=
| NoHreflang                                        (* { hasHreflang: false } *)
| Hreflang (count : nat) (errors : list string).    (* { hasHreflang: true, count, errors } *)

Definition validateHreflang (dollar : Cheerio) : HreflangInfo :=
  let links := dollar ("link[rel=" ++ quoted "alternate" ++ "][hreflang]") in
  if (List.length links =? 0)%nat then NoHreflang
  else
    let codes := map (attr "hreflang") links in
    let errors :=
      if existsb (fun c => match c with
                           | Some v => String.eqb v "x-default"
                           | None => false
                           end) codes
      then [] else ["Missing x-default hreflang"] in
    Hreflang (List.length links) errors.

Record PaginationInfo := mkPaginationInfo {
  prev : bool;
  next : bool;
  paginated : bool
}.

Definition checkPagination (dollar : Cheerio) : PaginationInfo :=
  let prev := (0 <? List.length (dollar ("link[rel=" ++ quoted "prev" ++ "]")))%nat in
  let next := (0 <? List.length (dollar ("link[rel=" ++ quoted "next" ++ "]")))%nat in
  mkPaginationInfo prev next (prev || next).

Record CachingInfo := mkCachingInfo {
  cacheControl : string;
  maxAgeSeconds : float;
  good : bool
}.

Definition evaluateCaching (headers : list (string * string)) : CachingInfo :=
  let cc := orEmpty (lookup "cache-control" headers) in
  let maxAge :=
    match maxAgeDigits cc with
    | Some ds => ofZ (digitsValue 0 ds)
    | None => 0%float
    end in
  mkCachingInfo cc maxAge (2592000 <? maxAge)%float.

Record MixedContentInfo := mkMixedContentInfo { mixedCount : nat }.

Definition mixedContentCheck (dollar : Cheerio) (pageUrl : string) : MixedContentInfo :=
  if negb (startsWith pageUrl "https://") then mkMixedContentInfo 0
  else
    let count :=
      List.length (dollar ("img[src^=" ++ quoted "http://" ++ "], script[src^="
                           ++ quoted "http://" ++ "], link[href^=" ++ quoted "http://"
                           ++ "], iframe[src^=" ++ quoted "http://" ++ "]")) in
    mkMixedContentInfo count.

Record StructuredDataValidation := mkStructuredDataValidation { errors : nat }.

Definition validateStructuredData (P : Platform) (dollar : Cheerio)
  : StructuredDataValidation :=
  mkStructuredDataValidation
    (List.length
       (filter (fun el => negb (JSON_parses P (innerHtml el)))
          (dollar ("script[type=" ++ quoted "application/ld+json" ++ "]")))).

(* ===================================================================== *)
(** ** Effects: network calls and exceptions *)
(* ===================================================================== *)

(** A call handed to axios. *)
Inductive Call :=
| GET (url : string)
| HEAD (url : string).

(** What the handler's [catch] clauses can receive. *)
Inductive JsError :=
| AxiosNoResponse (e : NetworkError)   (* [error.code], no [error.response] *)
| AxiosBadStatus (r : Response)        (* [error.response] of a rejected status *)
| TypeError (msg : string)
| SyntaxError (msg : string)
| Error (msg : string).                (* a plain [Error] of a library *)

Inductive Result (A : Type) :=
| Ok (a : A)
| Throw (e : JsError).

Arguments Ok {A} a.
Arguments Throw {A} e.

(** The calls made so far, each with the milliseconds it took. *)
Definition Log : Type := list (Call * N).

Definition callsOf (log : Log) : list Call := map fst log.

(** The time that has passed since the handler set its guard. *)
Definition elapsed (log : Log) : N :=
  fold_right (fun call t => (snd call + t)%N) 0%N log.

(** A computation that may call the network and may throw: it extends the
    log of calls made so far. *)
Definition M (A : Type) : Type := Log -> Result A * Log.

Definition ret {A} (a : A) : M A := fun log => (Ok a, log).

Definition throw {A} (e : JsError) : M A := fun log => (Throw e, log).

Definition bind {A B} (m : M A) (k : A -> M B) : M B := fun log =>
  match m log with
  | (Ok a, log') => k a log'
  | (Throw e, log') => (Throw e, log')
  end.

(** [try { m } catch (err) { handler(err) }]. *)
Definition tryCatch {A} (m : M A) (handler : JsError -> M A) : M A := fun log =>
  match m log with
  | (Ok a, log') => (Ok a, log')
  | (Throw e, log') => handler e log'
  end.

Notation "x <- c ;; k" := (bind c (fun x => k))
  (at level 61, c at next level, right associativity).

(** A response in the hands of the handler: [textual] tells whether its
    [response.data] is a string, which is then [data answer]. *)
Record Delivered := mkDelivered {
  answer : Response;
  textual : bool
}.

(** [axios.get] and [axios.head].  With [validateStatus: () => true]
    ([anyStatus]) every response is returned; by default a status outside
    200..299 is thrown with the response attached. *)
Definition deliver (anyStatus : bool) (o : Outcome) : Result Delivered :=
  let settle r textual :=
    if anyStatus || ((200 <=? status r) && (status r <? 300))
    then Ok (mkDelivered r textual) else Throw (AxiosBadStatus r) in
  match o with
  | Responded r => settle r true
  | RespondedJson r => settle r false
  | Unreachable e => Throw (AxiosNoResponse e)
  end.

(** The time a call takes under [{ timeout }]: axios reports a response
    before the time-out has passed, and gives up when it has. *)
Definition spent (timeout : N) (o : Outcome) (ms : N) : N :=
  match o with
  | Unreachable _ => N.min ms timeout
  | Responded _ | RespondedJson _ => N.min ms (timeout - 1)%N
  end.

Definition axios_get (W : World) (anyStatus : bool) (timeout : N) (url : string)
  : M Delivered :=
  fun log =>
    let o := http_get W url in
    (deliver anyStatus o, (log ++ [(GET url, spent timeout o (get_ms W url))])%list).

Definition axios_head (W : World) (anyStatus : bool) (timeout : N) (url : string)
  : M Delivered :=
  fun log =>
    let o := http_head W url in
    (deliver anyStatus o, (log ++ [(HEAD url, spent timeout o (head_ms W url))])%list).

(** [res.data] used as a string: a method of strings called on a parsed
    JSON value throws, with the message that [message] gives. *)
Definition stringData (message : string -> string) (res : Delivered) : M string :=
  if textual res then ret (data (answer res))
  else throw (TypeError (message (data (answer res)))).

Definition errorMessage (e : JsError) : string :=
  match e with
  | AxiosNoResponse n => message n
  | AxiosBadStatus r => "Request failed with status code " ++ zToString (status r)
  | TypeError msg => msg
  | SyntaxError msg => msg
  | Error msg => msg
  end.

(* ===================================================================== *)
(** ** Auxiliary probes *)
(* ===================================================================== *)

Definition checkSecurityHeaders (W : World) (url : string) : M SecurityHeaders :=
  tryCatch (headerResponse <- axios_head W true 10000 url ;;
       let headers := headers (answer headerResponse) in
       ret (Some (mkSecurityHeaderFlags
                    (truthyOpt (lookup "x-frame-options" headers))
                    (truthyOpt (lookup "content-security-policy" headers))
                    (truthyOpt (lookup "x-xss-protection" headers))
                    (truthyOpt (lookup "strict-transport-security" headers))
                    (truthyOpt (lookup "referrer-policy" headers))
                    (truthyOpt (lookup "permissions-policy" headers)
                     || truthyOpt (lookup "feature-policy" headers)))))
      (fun err => ret None).

Inductive RobotsInfo :=
| RobotsRejected (status : Z)                          (* { exists: false, status } *)
| RobotsFound (disallows : list string) (status : Z)   (* { exists: true, disallows, status } *)
| RobotsFailed (error : string).                       (* { exists: false, error } *)

Definition robotsExists (r : RobotsInfo) : bool :=
  match r with RobotsFound _ _ => true | _ => false end.

(** [new URL(rel, base).href] inside a [try]. *)
Definition resolveUrl (P : Platform) (rel base : string) : M string :=
  match URL_href P rel base with
  | Some href => ret href
  | None => throw (TypeError "Invalid URL")
  end.

Definition fetchRobotsTxt (P : Platform) (W : World) (siteUrl : string) : M RobotsInfo :=
  tryCatch (robotsUrl <- resolveUrl P "/robots.txt" siteUrl ;;
       res <- axios_get W true 15000 robotsUrl ;;
       if 400 <=? status (answer res) then ret (RobotsRejected (status (answer res)))
       else
         body <- stringData (Split_error P) res ;;
         let disallows :=
           filter (fun l => startsWith (toLowerCase l) "disallow")
                  (splitChar "010" body) in
         ret (RobotsFound disallows (status (answer res))))
      (fun err => ret (RobotsFailed (errorMessage err))).

Inductive SitemapInfo :=
| SitemapRejected (status : Z)     (* { exists: false, status } *)
| SitemapFound (urlCount : nat)    (* { exists: true, urlCount } *)
| SitemapFailed (error : string).  (* { exists: false, error } *)

Definition sitemapExists (s : SitemapInfo) : bool :=
  match s with SitemapFound _ => true | _ => false end.

Definition fetchXmlSitemap (P : Platform) (W : World) (siteUrl : string) : M SitemapInfo :=
  tryCatch (sitemapUrl <- resolveUrl P "/sitemap.xml" siteUrl ;;
       res <- axios_get W true 15000 sitemapUrl ;;
       if 400 <=? status (answer res) then ret (SitemapRejected (status (answer res)))
       else
         let parsed :=
           if textual res then XMLParser_parse P (data (answer res))
           else XMLParser_parse_value P (data (answer res)) in
         let urlCount :=
           match parsed with
           | Some (UrlArray n) => n
           | Some UrlSingle => 1%nat
           | Some UrlAbsent | None => 0%nat
           end in
         ret (SitemapFound urlCount))
      (fun err => ret (SitemapFailed (errorMessage err))).

Record ImageSizeInfo := mkImageSizeInfo {
  sampled : nat;
  avgSize : float
}.

(** One turn of the loop of [checkImageSizes], on the running [total] and
    [counted]. *)
Definition sampleImage (P : Platform) (W : World) (pageUrl : string)
    (img : Element) (acc : float * nat) : M (float * nat) :=
  match attr "src" img with
  | None => ret acc
  | Some src =>
      if negb (JsString.truthy src) then ret acc
      else
        match URL_href P src pageUrl with
        | None => ret acc
        | Some abs =>
            tryCatch (head <- axios_head W true 10000 abs ;;
                 match parseInt (match lookup "content-length" (headers (answer head)) with
                                 | Some v => if JsString.truthy v then v else "0"
                                 | None => "0"
                                 end) with
                 | Some len =>
                     if len =? 0 then ret acc
                     else ret ((fst acc + ofZ len)%float, S (snd acc))
                 | None => ret acc
                 end)
                (fun err => ret acc)
        end
  end.

Fixpoint sampleImages (P : Platform) (W : World) (pageUrl : string)
    (imgs : list Element) (acc : float * nat) : M (float * nat) :=
  match imgs with
  | [] => ret acc
  | img :: rest =>
      acc' <- sampleImage P W pageUrl img acc ;;
      sampleImages P W pageUrl rest acc'
  end.

Definition checkImageSizes (P : Platform) (W : World) (dollar : Cheerio)
    (pageUrl : string) (limit : nat) : M ImageSizeInfo :=
  let imgs := firstn limit (dollar "img") in
  acc <- sampleImages P W pageUrl imgs (0%float, 0%nat) ;;
  let '(total, counted) := acc in
  ret (mkImageSizeInfo counted
         (if (counted =? 0)%nat then 0%float
          else Math_round (total / ofNat counted)%float)).

(* ===================================================================== *)
(** ** The handler of [POST /api/analyze] *)
(* ===================================================================== *)

Record Analysis := mkAnalysis {
  (* Basic SEO elements *)
  title : string;
  metaDescription : string;
  headings : HeadingProfile;       (* h1Text, h1Count .. h6Count, headings *)
  imgCount : nat;
  imgWithAltCount : nat;
  internalLinks : nat;
  externalLinks : nat;
  canonicalUrl : string;
  robotsMeta : string;
  keywordsMeta : string;
  (* Technical SEO *)
  hasSSL : bool;
  hasMobileViewport : bool;
  viewportMeta : string;
  (* Performance indicators *)
  scriptCount : nat;
  cssCount : nat;
  inlineStyles : nat;
  (* Content quality metrics *)
  textToCodeRatio : float;
  keywordDensity : float;
  totalImages : nat;
  totalVideos : nat;
  structuredDataCount : nat;
  (* Social media *)
  socialMediaTags : nat;
  openGraphTags : nat;
  twitterTags : nat;
  (* Advanced scores *)
  technicalScore : Z;
  contentScore : Z;
  performanceScore : Z;
  overallScore : float;
  (* Crawl and technical extras *)
  robotsInfo : RobotsInfo;
  sitemapInfo : SitemapInfo;
  hreflangInfo : HreflangInfo;
  paginationInfo : PaginationInfo;
  imageSizeInfo : ImageSizeInfo;
  cachingInfo : CachingInfo;
  mixedContentInfo : MixedContentInfo;
  structuredDataValidation : StructuredDataValidation;
  timestamp : string
}.

Inductive Body :=
| ErrorBody (error : string) (detail : option string)   (* { error } or { error, message } *)
| ReportBody (url : string) (analysis : Analysis) (recommendations : list string)
| NoBody.                                               (* nothing after the headers *)

Record Reply := mkReply {
  replyStatus : Z;
  replyBody : Body
}.

(** [res.status(status).json(body)], for a status that Node accepts
    (100..999): Express strips the body of a 204 and of a 304, and Node
    sends none with a 1xx either. *)
Definition json (status : Z) (body : Body) : Reply :=
  mkReply status
    (if (status =? 204) || (status =? 304) || ((100 <=? status) && (status <? 200))
     then NoBody else body).

(** The value found at [req.body.url]. *)
Inductive JsValue :=
| VUndefined
| VNull
| VBoolean (b : bool)
| VNumber (x : float)
| VString (s : string)
| VObject.                       (* any object or array *)

Definition falsy (v : JsValue) : bool :=
  match v with
  | VUndefined | VNull => true
  | VBoolean b => negb b
  | VNumber x => negb (JsNumber.truthy x)
  | VString s => negb (JsString.truthy s)
  | VObject => false
  end.

Definition isString (v : JsValue) : bool :=
  match v with VString _ => true | _ => false end.

Definition stringOf (v : JsValue) : string :=
  match v with VString s => s | _ => "" end.

(** [new URL(url)] outside any inner [try]. *)
Definition parseUrl (P : Platform) (url : string) : M URL :=
  match URL_parse P url with
  | Some u => ret u
  | None => throw (TypeError "Invalid URL")
  end.

(** The keyword-density estimate: the first candidate word of the title is
    handed to [new RegExp(keyword, 'gi')] as it is. *)
Definition estimateKeywordDensity (P : Platform) (title bodyText : string) : M float :=
  if JsString.truthy title && JsString.truthy bodyText then
    match potentialKeywords title with
    | keyword :: _ =>
        match RegExp_gi P keyword with
        | inl countMatches =>
            ret (density (countMatches bodyText) (wordCount bodyText))
        | inr msg => throw (SyntaxError msg)
        end
    | [] => ret 0%float
    end
  else ret 0%float.

(** [if (cond) recommendations.push(msg)]. *)
Definition pushIf (cond : bool) (msg : string) : list string :=
  if cond then [msg] else [].

Definition linkSelectors (url host : string) : string * string :=
  ("a[href^=" ++ quoted "/" ++ "], a[href^=" ++ quoted url
     ++ "], a[href^=" ++ quoted ("http://" ++ host)
     ++ "], a[href^=" ++ quoted ("https://" ++ host) ++ "]",
   "a[href^=" ++ quoted "http" ++ "]:not([href^=" ++ quoted url
     ++ "]):not([href^=" ++ quoted ("http://" ++ host)
     ++ "]):not([href^=" ++ quoted ("https://" ++ host) ++ "])").

(** [$(selector)] with a selector built at run time: the selector is parsed
    first, and an ill-formed one is an error. *)
Definition select (P : Platform) (dollar : Cheerio) (selector : string)
  : M (list Element) :=
  match Selector_error P selector with
  | None => ret (dollar selector)
  | Some msg => throw (Error msg)
  end.

(** [$('title').text()] after the clean-up, and [$('body').text()]. *)
Definition pageTitle (dollar : Cheerio) : string :=
  cleanTitle (selText (dollar "title")).

Definition pageBodyText (dollar : Cheerio) : string :=
  selText (dollar "body").

(** The synchronous code of the [try] block, in the order of the source:
    what the handler computes from the fetched page and from the values it
    awaited (the parsed URL, the keyword density, and the results of the
    four probes), up to the body of the reply. *)
Definition report (P : Platform) (url now : string) (response : Response)
    (parsed : URL) (keywordDensity : float) (securityHeaders : SecurityHeaders)
    (robotsInfo : RobotsInfo) (sitemapInfo : SitemapInfo)
    (imageSizeInfo : ImageSizeInfo) : Body :=
  let dollar := cheerio_load P (data response) in
  let count sel := List.length (dollar sel) in
  let title := pageTitle dollar in
  let metaDescription :=
    orEmpty (selAttr "content" (dollar ("meta[name=" ++ quoted "description" ++ "]"))) in
  let viewportMeta :=
    orEmpty (selAttr "content" (dollar ("meta[name=" ++ quoted "viewport" ++ "]"))) in
  let htmlContent := data response in
  let headings := detectHeadings dollar htmlContent in
  let imgCount := count "img" in
  let imgWithAltCount := count "img[alt]" in
  let '(internalSel, externalSel) := linkSelectors url (hostname parsed) in
  let internalLinks := count internalSel in
  let externalLinks := count externalSel in
  let canonicalUrl :=
    orEmpty (selAttr "href" (dollar ("link[rel=" ++ quoted "canonical" ++ "]"))) in
  let robotsMeta :=
    orEmpty (selAttr "content" (dollar ("meta[name=" ++ quoted "robots" ++ "]"))) in
  let keywordsMeta :=
    orEmpty (selAttr "content" (dollar ("meta[name=" ++ quoted "keywords" ++ "]"))) in
  let hasSSL := startsWith url "https://" in
  let scriptCount := count "script" in
  let cssCount := count ("link[rel=" ++ quoted "stylesheet" ++ "]") in
  let inlineStyles := count "style" in
  let bodyText := pageBodyText dollar in
  let textToCodeRatio :=
    (ofNat (String.length bodyText) / ofNat (String.length htmlContent))%float in
  let totalVideos :=
    count ("video, iframe[src*=" ++ quoted "youtube" ++ "], iframe[src*="
           ++ quoted "vimeo" ++ "]") in
  let structuredDataCount :=
    count ("script[type=" ++ quoted "application/ld+json" ++ "]") in
  let openGraphTags := count ("meta[property^=" ++ quoted "og:" ++ "]") in
  let twitterTags := count ("meta[name^=" ++ quoted "twitter:" ++ "]") in
  let socialMediaTags := (openGraphTags + twitterTags)%nat in
  let hasMobileViewport := includes viewportMeta "width=device-width" in
  let resourceHints := checkResourceHints dollar in
  let technicalScore :=
    calculateTechnicalScore hasSSL hasMobileViewport canonicalUrl robotsMeta
      resourceHints securityHeaders in
  let contentScore :=
    calculateContentScore textToCodeRatio (h1Count headings) (h2Count headings)
      keywordDensity in
  let performanceScore := calculatePerformanceScore scriptCount cssCount in
  let overallScore :=
    calculateWeightedScore technicalScore contentScore performanceScore in
  let recommendations :=
    (pushIf (negb hasMobileViewport) "Add a viewport meta tag for mobile responsiveness"
     ++ pushIf (h1Count headings =? 0)%nat "Add at least one H1 heading"
     ++ pushIf (imgWithAltCount <? imgCount)%nat
          ("Add alt text to " ++ natToString (imgCount - imgWithAltCount) ++ " images")%string
     ++ pushIf (keywordDensity <? 0.5)%float
          "Use your primary keyword more frequently in body copy"
     ++ pushIf (structuredDataCount =? 0)%nat "Implement schema.org structured data")%list in
  let hreflangInfo := validateHreflang dollar in
  let paginationInfo := checkPagination dollar in
  let cachingInfo := evaluateCaching (headers response) in
  let mixedContentInfo := mixedContentCheck dollar url in
  let structuredDataValidation := validateStructuredData P dollar in
  let recommendations :=
    (recommendations
     ++ pushIf (negb (robotsExists robotsInfo)) "Add a robots.txt"
     ++ pushIf (negb (sitemapExists sitemapInfo))
          "Add a sitemap.xml and reference it in robots.txt"
     ++ match hreflangInfo with
        | Hreflang _ (e :: es) =>
            [("Fix hreflang issues: " ++ String.concat ", " (e :: es))%string]
        | _ => []
        end
     ++ pushIf (negb (mixedCount mixedContentInfo =? 0)%nat)
          (natToString (mixedCount mixedContentInfo)
           ++ " insecure (HTTP) assets found on HTTPS page")%string
     ++ pushIf (negb (good cachingInfo))
          "Serve static assets with far-future Cache-Control headers"
     ++ pushIf (negb (errors structuredDataValidation =? 0)%nat)
          (natToString (errors structuredDataValidation)
           ++ " structured-data blocks contain invalid JSON")%string)%list in
  ReportBody url
    (mkAnalysis title metaDescription headings imgCount imgWithAltCount
       internalLinks externalLinks canonicalUrl robotsMeta keywordsMeta
       hasSSL hasMobileViewport viewportMeta scriptCount cssCount
       inlineStyles textToCodeRatio keywordDensity imgCount totalVideos
       structuredDataCount socialMediaTags openGraphTags twitterTags
       technicalScore contentScore performanceScore overallScore
       robotsInfo sitemapInfo hreflangInfo paginationInfo imageSizeInfo
       cachingInfo mixedContentInfo structuredDataValidation now)
    recommendations.

(** The [try] block of the handler: its network calls and the places where
    it can throw, in the order of the source.  A page that axios delivers as
    a parsed JSON value is an error before anything is read off it; the two
    link selectors, built from [url], are parsed after [new URL(url)]; the
    counts they give are read again by [report], off the same selections. *)
Definition analyze (P : Platform) (W : World) (url now : string) : M Reply :=
  if negb (JsString.truthy url)
  then ret (json 400 (ErrorBody "URL is required" None))
  else
    page <- axios_get W false 30000 url ;;
    _ <- stringData (Markup_error P) page ;;
    let response := answer page in
    let dollar := cheerio_load P (data response) in
    parsed <- parseUrl P url ;;
    _ <- select P dollar (fst (linkSelectors url (hostname parsed))) ;;
    _ <- select P dollar (snd (linkSelectors url (hostname parsed))) ;;
    keywordDensity <-
      estimateKeywordDensity P (pageTitle dollar) (pageBodyText dollar) ;;
    securityHeaders <- checkSecurityHeaders W url ;;
    robotsInfo <- fetchRobotsTxt P W url ;;
    sitemapInfo <- fetchXmlSitemap P W url ;;
    imageSizeInfo <- checkImageSizes P W dollar url 5 ;;
    ret (json 200
           (report P url now response parsed keywordDensity securityHeaders
              robotsInfo sitemapInfo imageSizeInfo)).

(** The handler's [catch] block. *)
Definition onError (error : JsError) : Reply :=
  let failed msg := json 500 (ErrorBody "Failed to analyze URL" (Some msg)) in
  match error with
  | AxiosNoResponse e =>
      if String.eqb (code e) "ENOTFOUND" || String.eqb (code e) "ECONNREFUSED"
      then json 400
             (ErrorBody "Could not connect to the website. Please check the URL and try again."
                        None)
      else failed (message e)
  | AxiosBadStatus r =>
      if negb (status r =? 0)
      then json (status r)
             (ErrorBody ("Website returned an error: " ++ zToString (status r)
                         ++ " " ++ statusText r) None)
      else failed (errorMessage error)
  | TypeError msg | SyntaxError msg | Error msg => failed msg
  end.

(** The guard that the handler sets before its [try] block:
    [setTimeout(() => res.status(504).json(...), 30000)], cleared when the
    block, or its [catch], comes to its reply. *)
Definition guardDelay : N := 30000.

Definition guardFired (log : Log) : bool := (guardDelay <=? elapsed log)%N.

Definition timedOut : Reply :=
  json 504
    (ErrorBody "Request timed out. The website may be too slow to respond." None).

(** The handler: the reply sent, and the calls handed to axios on the way.
    [now] is the time read when the report is assembled.  When the guard
    fires first, its 504 is the reply; the [try] block runs on all the
    same, and what it then tries to send is refused, the reply being out. *)
Definition handler (P : Platform) (W : World) (url : JsValue) (now : string)
  : Reply * list Call :=
  if falsy url || negb (isString url)
  then (json 400 (ErrorBody "Invalid URL provided" None), [])
  else
    let '(outcome, log) := analyze P W (stringOf url) now [] in
    (if guardFired log then timedOut
     else match outcome with
          | Ok reply => reply
          | Throw error => onError error
          end,
     callsOf log).

(* ===================================================================== *)
(** ** A small platform and network, to run the handler on *)
(* ===================================================================== *)

Module Demo.

Definition nl : string := String "010" EmptyString.

(** A URL reader for [http://host/path] and [https://host/path]. *)
Definition splitUrl (u : string) : option (string * string * string) :=
  let rest scheme :=
    match afterPrefix scheme u with
    | Some r =>
        let host := beforeFirst "/" r in
        if JsString.truthy host
        then Some (scheme, host,
                   match afterFirst "/" r with
                   | Some path => ("/" ++ path)%string
                   | None => "/"
                   end)
        else None
    | None => None
    end in
  match rest "https://" with
  | Some x => Some x
  | None => rest "http://"
  end.

Definition urlParse (u : string) : option URL :=
  match splitUrl u with
  | Some (_, host, path) => Some (mkURL host path)
  | None => None
  end.

Definition urlHref (rel base : string) : option string :=
  match splitUrl rel with
  | Some _ => Some rel
  | None =>
      match splitUrl base with
      | Some (scheme, host, _) =>
          if startsWith rel "/" then Some (scheme ++ host ++ rel)%string
          else Some (scheme ++ host ++ "/" ++ rel)%string
      | None => None
      end
  end.

Definition isAlnum (c : ascii) : bool :=
  let n := JsString.code c in
  (isDigit c || ((65 <=? n) && (n <=? 90)) || ((97 <=? n) && (n <=? 122)))%nat.

Fixpoint allAlnum (s : string) : bool :=
  match s with
  | EmptyString => true
  | String c r => isAlnum c && allAlnum r
  end.

Definition literalAt (p : string) : matcher := fun s =>
  match afterPrefixCi p s with
  | Some _ => Some (String.length p)
  | None => None
  end.

(** A [RegExp] constructor for two kinds of pattern: letters and digits
    only, which match themselves, and a pattern that begins with a
    quantifier, which every engine rejects (nothing to repeat). *)
Definition regExp (p : string) : (string -> nat) + string :=
  match p with
  | String c _ =>
      if Ascii.eqb c "*" || Ascii.eqb c "+" || Ascii.eqb c "?"
      then inr ("Invalid regular expression: /" ++ p ++ "/gi: Nothing to repeat")%string
      else if allAlnum p
           then inl (fun text => List.length (matchAll (literalAt p) text))
           else inr "pattern outside this instance"
  | EmptyString => inr "pattern outside this instance"
  end.

Definition text (t : string) : Element := mkElement [] t t.

Definition fooPage : string :=
  "<html><head><title>Foo - SEO Audit Tool</title></head><body><h1>A</h1><h1>B</h1><img src=x></body></html>".

Definition shopPage : string :=
  "<html><head><title>Garden tools</title></head><body><h2>Spades</h2><p>garden spades and garden forks</p><img src='http://cdn.example/a.png'></body></html>".

Definition starsPage : string :=
  "<html><head><title>**** Deals</title></head><body><h1>Deals</h1></body></html>".

Definition recipePage : string :=
  "<html><head><title>Lemon cake</title><script type='application/ld+json'>{}</script><script type='application/ld+json'>{name:</script></head><body><h1>Lemon cake</h1></body></html>".

Definition ldJsonSelector : string :=
  "script[type=" ++ quoted "application/ld+json" ++ "]".

Definition mixedSelector : string :=
  "img[src^=" ++ quoted "http://" ++ "], script[src^=" ++ quoted "http://"
  ++ "], link[href^=" ++ quoted "http://" ++ "], iframe[src^="
  ++ quoted "http://" ++ "]".

(** The selections of the four pages, as an HTML parser gives them. *)
Definition load (html : string) : Cheerio := fun sel =>
  if String.eqb html fooPage then
    if String.eqb sel "title" then [text "Foo - SEO Audit Tool"]
    else if String.eqb sel "h1" then [text "A"; text "B"]
    else if String.eqb sel "body" then [text "AB"]
    else if String.eqb sel "img" then [mkElement [("src", "x")] "" ""]
    else []
  else if String.eqb html shopPage then
    if String.eqb sel "title" then [text "Garden tools"]
    else if String.eqb sel "h2" then [text "Spades"]
    else if String.eqb sel "body" then [text "Spadesgarden spades and garden forks"]
    else if String.eqb sel "img" || String.eqb sel mixedSelector
         then [mkElement [("src", "http://cdn.example/a.png")] "" ""]
    else []
  else if String.eqb html starsPage then
    if String.eqb sel "title" then [text "**** Deals"]
    else if String.eqb sel "h1" then [text "Deals"]
    else if String.eqb sel "body" then [text "Deals"]
    else []
  else if String.eqb html recipePage then
    if String.eqb sel "title" then [text "Lemon cake"]
    else if String.eqb sel "h1" then [text "Lemon cake"]
    else if String.eqb sel "body" then [text "Lemon cake"]
    else if String.eqb sel "script" || String.eqb sel ldJsonSelector
         then [mkElement [("type", "application/ld+json")] "{}" "{}";
               mkElement [("type", "application/ld+json")] "{name:" "{name:"]
    else []
  else [].

(** A selector check for attribute values: the double quote that closes a
    value is followed by the closing bracket. *)
Fixpoint selectorError (inValue : bool) (sel : string) : option string :=
  match sel with
  | EmptyString =>
      if inValue then Some "Attribute selector didn't terminate" else None
  | String c r =>
      if Ascii.eqb c "034" then
        if inValue then
          if startsWith r "]" then selectorError false r
          else Some "Attribute selector didn't terminate"
        else selectorError true r
      else selectorError inValue r
  end.

Definition platform : Platform :=
  mkPlatform load urlParse urlHref regExp
    (fun t => String.eqb t "{}")
    (fun xml => if String.eqb xml "" then None else Some UrlAbsent)
    (fun value => Some UrlAbsent)
    (selectorError false)
    (fun value => "htmlContent.match is not a function")
    (fun value => "res.data.split is not a function").

Definition robotsTxt : string :=
  "User-agent: *" ++ nl ++ "Disallow: /cart" ++ nl ++ "Allow: /" ++ nl
  ++ "DISALLOW: /admin" ++ nl ++ " disallow: /indented".

Definition notFound : Outcome := Responded (mkResponse 404 "Not Found" [] "").

Definition world : World :=
  mkWorld
    (fun u =>
       if String.eqb u "https://foo.example/"
       then Responded (mkResponse 200 "OK" [("cache-control", "max-age=3600")] fooPage)
       else if String.eqb u "http://shop.example/"
       then Responded (mkResponse 200 "OK" [] shopPage)
       else if String.eqb u "https://stars.example/"
       then Responded (mkResponse 200 "OK" [] starsPage)
       else if String.eqb u "http://shop.example/robots.txt"
       then Responded (mkResponse 200 "OK" [] robotsTxt)
       else if String.eqb u "https://foo.example/robots.txt"
       then notFound
       else if String.eqb u "https://gone.example/"
       then notFound
       else if String.eqb u "https://recipes.example/"
       then Responded (mkResponse 200 "OK" [] recipePage)
       else if String.eqb u "https://recipes.example/robots.txt"
       then RespondedJson (mkResponse 200 "OK" [] "{}")
       else if String.eqb u "https://cached.example/"
       then Responded (mkResponse 304 "Not Modified" [] "")
       else Unreachable (mkNetworkError "ERR_INVALID_URL" "Invalid URL"))
    (fun u =>
       if String.eqb u "http://cdn.example/a.png"
       then Responded (mkResponse 200 "OK" [("content-length", "2048")] "")
       else Unreachable (mkNetworkError "ECONNRESET" "socket hang up"))
    (fun u => 120%N)
    (fun u => 80%N).



(** A network that answers nothing: axios gives up on every call at its
    time-out. *)
Definition silentWorld : World :=
  mkWorld
    (fun u => Unreachable (mkNetworkError "ECONNABORTED" "timeout of 30000ms exceeded"))
    (fun u => Unreachable (mkNetworkError "ECONNABORTED" "timeout of 10000ms exceeded"))
    (fun u => 30000%N)
    (fun u => 10000%N).

End Demo.

(* ===================================================================== *)
(** ** Vocabulary of the properties *)
(* ===================================================================== *)

(** The values the three sub-scores can take. *)
Definition technicalValues : list Z :=
  [0; 10; 15; 20; 25; 30; 35; 40; 45; 50; 55; 60; 65; 70; 80].

Definition contentValues : list Z := [0; 10; 20; 30; 40; 50; 60].

Definition performanceValues : list Z :=
  map (fun k => 2 * Z.of_nat k) (seq 0 51).

(** The binary64 overall score against its exact reading. *)
Definition agrees (t c p : Z) : bool :=
  PrimFloat.Leibniz.eqb (calculateWeightedScore t c p) (ofZ (weightedExact t c p)).

(** The exact weighted sum lies at 1/2 or more from its rounding: a tie. *)
Definition tie (t c p : Z) : bool :=
  Qle_bool (1 # 2) (Qabs (inject_Z (weightedExact t c p) - weightedSum t c p)).

Definition inRange (x : float) : bool := ((0 <=? x) && (x <=? 100))%float.

Definition onScores (check : Z -> Z -> Z -> bool) : bool :=
  forallb (fun t => forallb (fun c => forallb (check t c) performanceValues)
                      contentValues) technicalValues.

(** A computation that never throws, and one that only appends to the log
    of calls. *)
Definition returning {A} (m : M A) : Prop :=
  forall log, exists a more, m log = (Ok a, (log ++ more)%list).

Definition extending {A} (m : M A) : Prop :=
  forall log, exists more, snd (m log) = (log ++ more)%list.

(** The error of the first of the two link selectors, built from [url],
    that cheerio cannot parse. *)
Definition linkSelectorError (P : Platform) (url : string) (parsed : URL)
  : option string :=
  match Selector_error P (fst (linkSelectors url (hostname parsed))) with
  | Some refused => Some refused
  | None => Selector_error P (snd (linkSelectors url (hostname parsed)))
  end.



(** The lines of a response body. *)
Definition responseLines (body : string) : list string := splitChar "010" body.


(** The report with its [timestamp] field set to [t]. *)
Definition restamp (t : string) (a : Analysis) : Analysis :=
  mkAnalysis (title a) (metaDescription a) (headings a) (imgCount a)
    (imgWithAltCount a) (internalLinks a) (externalLinks a) (canonicalUrl a)
    (robotsMeta a) (keywordsMeta a) (hasSSL a) (hasMobileViewport a)
    (viewportMeta a) (scriptCount a) (cssCount a) (inlineStyles a)
    (textToCodeRatio a) (keywordDensity a) (totalImages a) (totalVideos a)
    (structuredDataCount a) (socialMediaTags a) (openGraphTags a) (twitterTags a)
    (technicalScore a) (contentScore a) (performanceScore a) (overallScore a)
    (robotsInfo a) (sitemapInfo a) (hreflangInfo a) (paginationInfo a)
    (imageSizeInfo a) (cachingInfo a) (mixedContentInfo a)
    (structuredDataValidation a) t.


(** A run of the handler with the timestamp of its report blanked. *)
Definition withoutTimestamp (run : Reply * list Call) : Reply * list Call :=
  match run with
  | (mkReply st (ReportBody u a recs), calls) =>
      (mkReply st (ReportBody u (restamp "" a) recs), calls)
  | _ => run
  end.


(** *** Further vocabulary *)


(** The status of a response is one that axios accepts by default. *)
Definition accepted (r : Response) : bool :=
  (200 <=? status r) && (status r <? 300).


(** The response of an outcome, if it has one. *)
Definition responseOf (o : Outcome) : option Response :=
  match o with
  | Responded r | RespondedJson r => Some r
  | Unreachable _ => None
  end.

(** A computation that appends at most [n] calls to the log. *)
Definition atMost {A} (n : nat) (m : M A) : Prop :=
  forall log,
  exists more, snd (m log) = (log ++ more)%list /\ (List.length more <= n)%nat.

(** What [fetchXmlSitemap] returns, by the outcome of its GET. *)
Definition sitemapOutcome (P : Platform) (o : Outcome) : SitemapInfo :=
  match o with
  | Unreachable e => SitemapFailed (message e)
  | Responded res =>
      if 400 <=? status res then SitemapRejected (status res)
      else SitemapFound
             match XMLParser_parse P (data res) with
             | Some (UrlArray n) => n
             | Some UrlSingle => 1%nat
             | Some UrlAbsent | None => 0%nat
             end
  | RespondedJson res =>
      if 400 <=? status res then SitemapRejected (status res)
      else SitemapFound
             match XMLParser_parse_value P (data res) with
             | Some (UrlArray n) => n
             | Some UrlSingle => 1%nat
             | Some UrlAbsent | None => 0%nat
             end
  end.

(** The number of places of [s] where an opening tag [<hN] begins. *)
Fixpoint openTagPlaces (lvl : ascii) (s : string) : nat :=
  match s with
  | EmptyString => O
  | String _ r =>
      match openTagAt lvl s with
      | Some _ => S (openTagPlaces lvl r)
      | None => openTagPlaces lvl r
      end
  end.

(** [p] is a prefix of [s]. *)
Fixpoint isPrefix (p s : string) : bool :=
  match p, s with
  | EmptyString, _ => true
  | String a p', String b s' => Ascii.eqb a b && isPrefix p' s'
  | String _ _, EmptyString => false
  end.

Fixpoint noWhiteSpace (s : string) : bool :=
  match s with
  | EmptyString => true
  | String c r => negb (isWhiteSpace c) && noWhiteSpace r
  end.

Fixpoint allDigits (s : string) : bool :=
  match s with
  | EmptyString => true
  | String c r => isDigit c && allDigits r
  end.

Definition isHead (c : Call) : bool :=
  match c with HEAD _ => true | GET _ => false end.

(** None of the first [k] places of [s] begins an opening tag [<hN]. *)
Fixpoint quietFor (lvl : ascii) (k : nat) (s : string) : bool :=
  match k, s with
  | S k', String _ r =>
      match openTagAt lvl s with
      | Some _ => false
      | None => quietFor lvl k' r
      end
  | _, _ => true
  end.

(** [toLowerCase] leaves every code unit of [s] as it is. *)
Fixpoint isLowered (s : string) : bool :=
  match s with
  | EmptyString => true
  | String c r => Ascii.eqb (lowerChar c) c && isLowered r
  end.

(** The recommendations, read off the fields of a report. *)
Definition recommendationsFor (a : Analysis) : list string :=
  (pushIf (negb (hasMobileViewport a))
     "Add a viewport meta tag for mobile responsiveness"
   ++ pushIf (h1Count (headings a) =? 0)%nat "Add at least one H1 heading"
   ++ pushIf (imgWithAltCount a <? imgCount a)%nat
        ("Add alt text to " ++ natToString (imgCount a - imgWithAltCount a)
         ++ " images")%string
   ++ pushIf (keywordDensity a <? 0.5)%float
        "Use your primary keyword more frequently in body copy"
   ++ pushIf (structuredDataCount a =? 0)%nat "Implement schema.org structured data"
   ++ pushIf (negb (robotsExists (robotsInfo a))) "Add a robots.txt"
   ++ pushIf (negb (sitemapExists (sitemapInfo a)))
        "Add a sitemap.xml and reference it in robots.txt"
   ++ match hreflangInfo a with
      | Hreflang _ (e :: es) =>
          [("Fix hreflang issues: " ++ String.concat ", " (e :: es))%string]
      | _ => []
      end
   ++ pushIf (negb (mixedCount (mixedContentInfo a) =? 0)%nat)
        (natToString (mixedCount (mixedContentInfo a))
         ++ " insecure (HTTP) assets found on HTTPS page")%string
   ++ pushIf (negb (good (cachingInfo a)))
        "Serve static assets with far-future Cache-Control headers"
   ++ pushIf (negb (errors (structuredDataValidation a) =? 0)%nat)
        (natToString (errors (structuredDataValidation a))
         ++ " structured-data blocks contain invalid JSON")%string)%list.

(** The network of [Demo.world], where the HEAD of the foo page answers
    with a Content-Security-Policy header. *)
Definition cspWorld : World :=
  mkWorld (http_get Demo.world)
    (fun u =>
       if String.eqb u "https://foo.example/"
       then Responded (mkResponse 200 "OK"
                         [("content-security-policy", "default-src 'self'")] "")
       else http_head Demo.world u)
    (get_ms Demo.world) (head_ms Demo.world).

(** The integers 0..100, and a check over all pairs of them. *)
Definition percentages : list Z := map Z.of_nat (seq 0 101).

Definition onPercentagePairs (check : Z -> Z -> bool) : bool :=
  forallb (fun j => forallb (check j) percentages) percentages.

(* ===================================================================== *)
(** ** Properties *)
(* ===================================================================== *)

Ltac in_list := repeat (first [left; reflexivity | right]).

(** *** Heading counts *)

Lemma foldBrute_max (cheerioN regexN bruteN : nat) :
  Nat.max (foldBrute cheerioN regexN bruteN) regexN
  = Nat.max (Nat.max cheerioN regexN) bruteN.
Proof.
  unfold foldBrute.
  destruct (Nat.ltb_spec cheerioN bruteN); destruct (Nat.ltb_spec regexN bruteN);
    cbn [andb]; lia.
Qed.

(** C1. Every final heading count is the maximum of the counts of the
    strategies that examined its level, and so is at least each of them:
    the cheerio count and the regex count for every level, the
    comment-stripped brute-force count for h1 and h2, the raw tag count for
    h2 and h3. *)
Theorem heading_counts_are_maxima (dollar : Cheerio) (html : string) :
  let p := detectHeadings dollar html in
  let dom lvl := cheerioCount dollar lvl in
  let re lvl := List.length (regexMatches lvl html) in
  let brute lvl := List.length (bruteMatches lvl html) in
  let raw lvl := rawCount lvl html in
  (h1Count p = Nat.max (Nat.max (dom "1"%char) (re "1"%char)) (brute "1"%char)
   /\ h2Count p = Nat.max (Nat.max (Nat.max (dom "2"%char) (re "2"%char)) (brute "2"%char)) (raw "2"%char)
   /\ h3Count p = Nat.max (Nat.max (dom "3"%char) (re "3"%char)) (raw "3"%char)
   /\ h4Count p = Nat.max (dom "4"%char) (re "4"%char)
   /\ h5Count p = Nat.max (dom "5"%char) (re "5"%char)
   /\ h6Count p = Nat.max (dom "6"%char) (re "6"%char))
  /\ (dom "1"%char <= h1Count p /\ re "1"%char <= h1Count p /\ brute "1"%char <= h1Count p)%nat
  /\ (dom "2"%char <= h2Count p /\ re "2"%char <= h2Count p /\ brute "2"%char <= h2Count p
      /\ raw "2"%char <= h2Count p)%nat
  /\ (dom "3"%char <= h3Count p /\ re "3"%char <= h3Count p /\ raw "3"%char <= h3Count p)%nat
  /\ (dom "4"%char <= h4Count p /\ re "4"%char <= h4Count p)%nat
  /\ (dom "5"%char <= h5Count p /\ re "5"%char <= h5Count p)%nat
  /\ (dom "6"%char <= h6Count p /\ re "6"%char <= h6Count p)%nat.
Proof.
  intros p dom re brute raw.
  assert (E1 : h1Count p = Nat.max (Nat.max (dom "1"%char) (re "1"%char)) (brute "1"%char))
    by (subst p dom re brute; cbn [detectHeadings h1Count]; apply foldBrute_max).
  assert (E2 : h2Count p
               = Nat.max (Nat.max (Nat.max (dom "2"%char) (re "2"%char)) (brute "2"%char)) (raw "2"%char))
    by (subst p dom re brute raw; cbn [detectHeadings h2Count];
        rewrite foldBrute_max; reflexivity).
  assert (E3 : h3Count p = Nat.max (Nat.max (dom "3"%char) (re "3"%char)) (raw "3"%char)) by reflexivity.
  assert (E4 : h4Count p = Nat.max (dom "4"%char) (re "4"%char)) by reflexivity.
  assert (E5 : h5Count p = Nat.max (dom "5"%char) (re "5"%char)) by reflexivity.
  assert (E6 : h6Count p = Nat.max (dom "6"%char) (re "6"%char)) by reflexivity.
  rewrite E1, E2, E3, E4, E5, E6.
  repeat split; lia.
Qed.

(** *** First H1 text *)

Lemma afterPrefixCi_length (p s r : string) :
  afterPrefixCi p s = Some r ->
  String.length s = (String.length p + String.length r)%nat.
Proof.
  revert s; induction p as [|a p IH]; intros s H.
  - destruct s; inversion H; reflexivity.
  - destruct s as [|b s]; [discriminate|].
    cbn in H. destruct (ciEq a b); [|discriminate].
    cbn. f_equal. apply IH, H.
Qed.

Lemma afterGt_length (s r : string) :
  afterGt s = Some r -> (String.length r < String.length s)%nat.
Proof.
  induction s as [|c s IH]; cbn; [discriminate|].
  destruct (Ascii.eqb c ">"); intros H.
  - inversion H; subst; lia.
  - specialize (IH H); lia.
Qed.

Lemma afterFirstCi_length (p s r : string) :
  afterFirstCi p s = Some r ->
  (String.length p + String.length r <= String.length s)%nat.
Proof.
  induction s as [|c s IH]; cbn [afterFirstCi];
    destruct (afterPrefixCi p _) eqn:E; intros H; inversion H; subst.
  - apply afterPrefixCi_length in E. lia.
  - apply afterPrefixCi_length in E. lia.
  - specialize (IH H). cbn. lia.
Qed.

Lemma headingAt_positive (lvl : ascii) (s : string) (n : nat) :
  headingAt lvl s = Some n -> n <> O.
Proof.
  unfold headingAt.
  destruct (afterPrefixCi _ s) as [r1|] eqn:E1; [|discriminate].
  destruct (afterGt r1) as [r2|] eqn:E2; [|discriminate].
  destruct (afterFirstCi _ r2) as [r3|] eqn:E3; [|discriminate].
  intros H; inversion H; subst; clear H.
  apply afterPrefixCi_length in E1. apply afterGt_length in E2.
  apply afterFirstCi_length in E3. cbn in E1, E3.
  unfold consumed. lia.
Qed.

Lemma matchAllFrom_truthy (m : matcher) :
  m EmptyString = None ->
  (forall s n, m s = Some n -> n <> O) ->
  forall s skip x, In x (matchAllFrom m skip s) -> JsString.truthy x = true.
Proof.
  intros Hnil Hpos s; induction s as [|c s IH]; intros skip x Hin.
  - cbn in Hin. rewrite Hnil in Hin. destruct skip; contradiction.
  - cbn [matchAllFrom] in Hin. destruct skip as [|k].
    + destruct (m (String c s)) as [n|] eqn:E.
      * destruct Hin as [<-|Hin]; [|eapply IH, Hin].
        destruct n as [|n]; [exfalso; eapply Hpos; eauto|reflexivity].
      * eapply IH, Hin.
    + eapply IH, Hin.
Qed.

Lemma regexMatches_truthy (lvl : ascii) (html x : string) :
  In x (regexMatches lvl html) -> JsString.truthy x = true.
Proof.
  apply matchAllFrom_truthy.
  - reflexivity.
  - apply headingAt_positive.
Qed.

(** C9. The reported [h1Text] is read off the first regex match alone: it
    is empty whenever the regex strategy finds no h1 in the raw markup,
    even when the final [h1Count] is positive because cheerio counted an
    h1 (first page below) or because the comment-stripped pass did
    (second page). *)
Theorem h1Text_comes_from_first_regex_match :
  (forall (dollar : Cheerio) (html : string),
      h1Text (detectHeadings dollar html)
      = match regexMatches "1" html with
        | [] => ""
        | m :: _ => stripTags m
        end)
  /\ (let dollar : Cheerio := fun sel => if String.eqb sel "h1" then [mkElement [] "A" "A"] else [] in
      let p := detectHeadings dollar "<h1>A" in
      regexMatches "1" "<h1>A" = [] /\ bruteMatches "1" "<h1>A" = []
      /\ h1Count p = 1%nat /\ h1Text p = "")
  /\ (let p := detectHeadings (fun _ => []) "<h<!-- -->1>A</h1>" in
      regexMatches "1" "<h<!-- -->1>A</h1>" = []
      /\ h1Count p = 1%nat /\ h1Text p = "").
Proof.
  split; [|split; vm_compute; repeat split].
  intros dollar html. cbn [detectHeadings h1Text].
  destruct (regexMatches "1" html) as [|m ms] eqn:E; [reflexivity|].
  rewrite (regexMatches_truthy "1" html m) by (rewrite E; left; reflexivity).
  rewrite andb_true_r.
  replace (0 <? _)%nat with true; [reflexivity|].
  symmetry; apply Nat.ltb_lt. cbn [List.length]. lia.
Qed.

(** *** Mixed content *)

(** C4. On a page whose URL does not start with [https://] the
    mixed-content check returns a count of 0, whatever the document
    holds. *)
Theorem mixed_content_zero_without_https (dollar : Cheerio) (pageUrl : string) :
  startsWith pageUrl "https://" = false ->
  mixedContentCheck dollar pageUrl = mkMixedContentInfo 0.
Proof.
  intros H. unfold mixedContentCheck. rewrite H. reflexivity.
Qed.

Lemma mixed_content_zero_without_https_witness :
  List.length (Demo.load Demo.shopPage Demo.mixedSelector) = 1%nat
  /\ startsWith "http://shop.example/" "https://" = false
  /\ mixedContentCheck (Demo.load Demo.shopPage) "http://shop.example/"
     = mkMixedContentInfo 0.
Proof.
  split; [reflexivity|]. split; [reflexivity|].
  apply (mixed_content_zero_without_https (Demo.load Demo.shopPage) "http://shop.example/").
  reflexivity.
Defined.

(** *** Scores *)

Lemma technical_value hasSSL hasMobileViewport canonicalUrl robotsMeta
    resourceHints securityHeaders :
  In (calculateTechnicalScore hasSSL hasMobileViewport canonicalUrl robotsMeta
        resourceHints securityHeaders) technicalValues.
Proof.
  unfold calculateTechnicalScore.
  destruct hasSSL, hasMobileViewport, (JsString.truthy canonicalUrl),
    (negb (includes robotsMeta "noindex")),
    (negb (totalResourceHints resourceHints =? 0)%nat),
    (flagValue hasContentSecurityPolicy securityHeaders);
    vm_compute; in_list.
Qed.

Lemma content_value textToCodeRatio h1Count h2Count keywordDensity :
  In (calculateContentScore textToCodeRatio h1Count h2Count keywordDensity)
     contentValues.
Proof.
  unfold calculateContentScore.
  destruct (0.1 <? textToCodeRatio)%float, (h1Count =? 1)%nat, (2 <=? h2Count)%nat,
    ((0.5 <? keywordDensity) && (keywordDensity <? 5))%float;
    vm_compute; in_list.
Qed.

Lemma performance_value scriptCount cssCount :
  In (calculatePerformanceScore scriptCount cssCount) performanceValues.
Proof.
  unfold calculatePerformanceScore, performanceValues.
  apply in_map_iff. exists (50 - (scriptCount + cssCount))%nat. split.
  - lia.
  - apply in_seq. lia.
Qed.

Lemma onScores_spec (check : Z -> Z -> Z -> bool) :
  onScores check = true ->
  forall t c p, In t technicalValues -> In c contentValues ->
                In p performanceValues -> check t c p = true.
Proof.
  unfold onScores. intros H t c p Ht Hc Hp.
  rewrite forallb_forall in H. specialize (H t Ht).
  rewrite forallb_forall in H. specialize (H c Hc).
  rewrite forallb_forall in H. exact (H p Hp).
Qed.

Lemma weighted_agrees_on_scores : onScores agrees = true.
Proof. vm_compute. reflexivity. Qed.

Lemma no_tie_on_scores : onScores (fun t c p => negb (tie t c p)) = true.
Proof. vm_compute. reflexivity. Qed.

Lemma weighted_in_range_on_scores :
  onScores (fun t c p => inRange (calculateWeightedScore t c p)) = true.
Proof. vm_compute. reflexivity. Qed.

(** C2. For every input of the three sub-score calculations, the overall
    score computed in binary64 is round(0.4*technical + 0.4*content +
    0.2*performance) taken on the exact weighted sum, which is the one
    integer at less than 1/2 from that sum. *)
Theorem overall_score_is_rounded_weighted_sum
    hasSSL hasMobileViewport canonicalUrl robotsMeta resourceHints securityHeaders
    textToCodeRatio h1Count h2Count keywordDensity scriptCount cssCount :
  let technical :=
    calculateTechnicalScore hasSSL hasMobileViewport canonicalUrl robotsMeta
      resourceHints securityHeaders in
  let content :=
    calculateContentScore textToCodeRatio h1Count h2Count keywordDensity in
  let performance := calculatePerformanceScore scriptCount cssCount in
  calculateWeightedScore technical content performance
  = ofZ (weightedExact technical content performance)
  /\ (Qabs (inject_Z (weightedExact technical content performance)
            - weightedSum technical content performance) < 1 # 2)%Q.
Proof.
  intros technical content performance.
  pose proof (technical_value hasSSL hasMobileViewport canonicalUrl robotsMeta
                resourceHints securityHeaders) as It.
  pose proof (content_value textToCodeRatio h1Count h2Count keywordDensity) as Ic.
  pose proof (performance_value scriptCount cssCount) as Ip.
  split.
  - apply FloatAxioms.Leibniz.eqb_spec.
    exact (onScores_spec agrees weighted_agrees_on_scores _ _ _ It Ic Ip).
  - pose proof (onScores_spec _ no_tie_on_scores _ _ _ It Ic Ip) as T.
    apply negb_true_iff in T. unfold tie in T.
    apply Qnot_le_lt. intros L. apply Qle_bool_iff in L.
    fold technical content performance in T. rewrite T in L. discriminate L.
Qed.

(** *** The handler, read backwards from its reply *)

Lemma bind_ok {A B} (m : M A) (k : A -> M B) log b log' :
  bind m k log = (Ok b, log') ->
  exists a l, m log = (Ok a, l) /\ k a l = (Ok b, log').
Proof.
  unfold bind. destruct (m log) as [[a|e] l]; [|discriminate].
  intros H. exists a, l. split; [reflexivity|exact H].
Qed.

Lemma json_200 (body : Body) : json 200 body = mkReply 200 body.
Proof. reflexivity. Qed.

Lemma json_body (st : Z) (body : Body) :
  replyBody (json st body) = body \/ replyBody (json st body) = NoBody.
Proof.
  unfold json. destruct (_ || _); cbn; auto.
Qed.

Lemma onError_body (error : JsError) u a recs :
  replyBody (onError error) <> ReportBody u a recs.
Proof.
  assert (J : forall st e d, replyBody (json st (ErrorBody e d)) <> ReportBody u a recs).
  { intros st e d. destruct (json_body st (ErrorBody e d)) as [E|E];
      rewrite E; discriminate. }
  destruct error as [n|r|msg|msg|msg]; cbn.
  - destruct (_ || _); [apply J|discriminate].
  - destruct (negb _); [apply J|discriminate].
  - discriminate.
  - discriminate.
  - discriminate.
Qed.

Lemma select_ok P dollar selector log els log' :
  select P dollar selector log = (Ok els, log') ->
  Selector_error P selector = None /\ log' = log.
Proof.
  unfold select. destruct (Selector_error P selector); [discriminate|].
  intros H. injection H as _ <-. split; reflexivity.
Qed.

Lemma report_url P url now response parsed kd sh ri si isi u a recs :
  report P url now response parsed kd sh ri si isi = ReportBody u a recs ->
  u = url.
Proof.
  unfold report, linkSelectors. cbv zeta beta iota.
  intros H. injection H as Hu _ _. symmetry; exact Hu.
Qed.

(** A reply that carries a report comes from a run of [analyze] in which
    the primary fetch, the URL parse and the keyword regex went through;
    the report is [report] applied to what the probes returned. *)
Lemma handler_report_inv P W url now st u a recs calls :
  handler P W url now = (mkReply st (ReportBody u a recs), calls) ->
  exists response parsed kd sh ri si isi l1 l2 l3 l4 l5 l6 l7,
    url = VString u /\ JsString.truthy u = true /\ st = 200
    /\ axios_get W false 30000 u [] = (Ok (mkDelivered response true), l1)
    /\ (parseUrl P u l1 = (Ok parsed, l2)
        /\ Selector_error P (fst (linkSelectors u (hostname parsed))) = None
        /\ Selector_error P (snd (linkSelectors u (hostname parsed))) = None)
    /\ estimateKeywordDensity P (pageTitle (cheerio_load P (data response)))
         (pageBodyText (cheerio_load P (data response))) l2 = (Ok kd, l3)
    /\ checkSecurityHeaders W u l3 = (Ok sh, l4)
    /\ fetchRobotsTxt P W u l4 = (Ok ri, l5)
    /\ fetchXmlSitemap P W u l5 = (Ok si, l6)
    /\ (checkImageSizes P W (cheerio_load P (data response)) u 5 l6 = (Ok isi, l7)
        /\ calls = callsOf l7 /\ guardFired l7 = false)
    /\ report P u now response parsed kd sh ri si isi = ReportBody u a recs.
Proof.
  unfold handler.
  destruct (falsy url || negb (isString url)) eqn:Hguard; [discriminate|].
  apply orb_false_elim in Hguard. destruct Hguard as [Hfalsy Hstr].
  destruct url as [| |b|x|s|]; try discriminate Hstr.
  cbn [stringOf falsy] in *. apply negb_false_iff in Hfalsy.
  destruct (analyze P W s now []) as [outcome log] eqn:Hrun.
  destruct (guardFired log) eqn:Hfire; [discriminate|].
  destruct outcome as [reply|error].
  2:{ intros H. injection H as H _.
      exfalso. apply (onError_body error u a recs). rewrite H. reflexivity. }
  intros H. injection H as Hreply Hcalls. subst reply calls.
  unfold analyze in Hrun. rewrite Hfalsy in Hrun. cbn [negb] in Hrun.
  apply bind_ok in Hrun. destruct Hrun as (page & l1 & R1 & Hrun).
  apply bind_ok in Hrun. destruct Hrun as (html & l1' & Rt & Hrun).
  unfold stringData in Rt. destruct page as [response isText].
  cbn [textual answer] in *. destruct isText; [|discriminate Rt].
  unfold ret in Rt. injection Rt as _ <-.
  cbv zeta in Hrun.
  apply bind_ok in Hrun. destruct Hrun as (parsed & l2 & R2 & Hrun).
  apply bind_ok in Hrun. destruct Hrun as (els1 & l2' & S1 & Hrun).
  apply select_ok in S1. destruct S1 as [S1 ->].
  apply bind_ok in Hrun. destruct Hrun as (els2 & l2' & S2 & Hrun).
  apply select_ok in S2. destruct S2 as [S2 ->].
  apply bind_ok in Hrun. destruct Hrun as (kd & l3 & R3 & Hrun).
  apply bind_ok in Hrun. destruct Hrun as (sh & l4 & R4 & Hrun).
  apply bind_ok in Hrun. destruct Hrun as (ri & l5 & R5 & Hrun).
  apply bind_ok in Hrun. destruct Hrun as (si & l6 & R6 & Hrun).
  apply bind_ok in Hrun. destruct Hrun as (isi & l7 & R7 & Hrun).
  unfold ret in Hrun. rewrite json_200 in Hrun.
  remember (report P s now response parsed kd sh ri si isi) as body eqn:Hbody.
  injection Hrun as Hst Hb Hl. subst l7 st body. rename Hb into Hbody.
  pose proof (report_url _ _ _ _ _ _ _ _ _ _ _ _ _ Hbody) as Hu. subst s.
  exists response, parsed, kd, sh, ri, si, isi, l1, l2, l3, l4, l5, l6, log.
  repeat (split; [first [reflexivity | assumption
                        | repeat split; first [reflexivity | assumption]]|]).
  exact Hbody.
Qed.

(** The extractor fields of a report are the extractors' results on the
    fetched page. *)
Lemma report_extractors P url now response parsed kd sh ri si isi u a recs :
  report P url now response parsed kd sh ri si isi = ReportBody u a recs ->
  headings a = detectHeadings (cheerio_load P (data response)) (data response)
  /\ mixedContentInfo a = mixedContentCheck (cheerio_load P (data response)) url
  /\ keywordDensity a = kd.
Proof.
  unfold report, linkSelectors. cbv zeta beta iota.
  intros H. injection H as _ <- _. cbn. repeat split.
Qed.

Lemma axios_get_ok W anyStatus timeout url log response log' :
  axios_get W anyStatus timeout url log = (Ok (mkDelivered response true), log') ->
  http_get W url = Responded response.
Proof.
  unfold axios_get, deliver. cbv zeta.
  destruct (http_get W url) as [r|e|r]; [|discriminate|];
    (destruct (_ || _); [|discriminate]); intros H; inversion H; reflexivity.
Qed.

Lemma reported_headings_and_mixed_content P W url now st u a recs calls :
  handler P W url now = (mkReply st (ReportBody u a recs), calls) ->
  exists response,
    http_get W u = Responded response
    /\ headings a = detectHeadings (cheerio_load P (data response)) (data response)
    /\ mixedContentInfo a = mixedContentCheck (cheerio_load P (data response)) u.
Proof.
  intros H. apply handler_report_inv in H.
  destruct H as (response & parsed & kd & sh & ri & si & isi
                 & l1 & l2 & l3 & l4 & l5 & l6 & l7
                 & _ & _ & _ & R1 & _ & _ & _ & _ & _ & _ & H).
  exists response. split; [exact (axios_get_ok _ _ _ _ _ _ _ R1)|].
  apply report_extractors in H. destruct H as (Hh & Hm & _). split; assumption.
Qed.

(** The scenario of the specification: two h1 elements, one image without
    alt text, and the tool's own name cut off the title. *)
Example report_of_the_foo_page :
  exists a recs calls,
    handler Demo.platform Demo.world (VString "https://foo.example/")
      "2024-01-01T00:00:00.000Z"
    = (mkReply 200 (ReportBody "https://foo.example/" a recs), calls)
    /\ title a = "Foo" /\ h1Count (headings a) = 2%nat /\ h1Text (headings a) = "A"
    /\ imgCount a = 1%nat /\ imgWithAltCount a = 0%nat
    /\ In "Add alt text to 1 images" recs.
Proof.
  do 3 eexists. split; [lazy; reflexivity|].
  repeat split. cbn. auto 10.
Qed.

Lemma report_scores P url now response parsed kd sh ri si isi u a recs :
  report P url now response parsed kd sh ri si isi = ReportBody u a recs ->
  technicalScore a
  = calculateTechnicalScore (hasSSL a) (hasMobileViewport a) (canonicalUrl a)
      (robotsMeta a) (checkResourceHints (cheerio_load P (data response))) sh
  /\ contentScore a
     = calculateContentScore (textToCodeRatio a) (h1Count (headings a))
         (h2Count (headings a)) (keywordDensity a)
  /\ performanceScore a = calculatePerformanceScore (scriptCount a) (cssCount a)
  /\ overallScore a
     = calculateWeightedScore (technicalScore a) (contentScore a) (performanceScore a).
Proof.
  unfold report, linkSelectors. cbv zeta beta iota.
  intros H. injection H as _ <- _. cbn. repeat split.
Qed.

Lemma weighted_exact_in_range_on_scores :
  onScores (fun t c p => (0 <=? weightedExact t c p) && (weightedExact t c p <=? 100))
  = true.
Proof. vm_compute. reflexivity. Qed.

Lemma listed_scores_in_range :
  Forall (fun v => 0 <= v <= 100) technicalValues
  /\ Forall (fun v => 0 <= v <= 100) contentValues.
Proof.
  split; repeat constructor; lia.
Qed.

(** C3. In every report the handler sends, the technical, content and
    performance scores lie in [0, 100], and the overall score is an
    integer of [0, 100]. *)
Theorem scores_within_bounds P W url now st u a recs calls :
  handler P W url now = (mkReply st (ReportBody u a recs), calls) ->
  0 <= technicalScore a <= 100
  /\ 0 <= contentScore a <= 100
  /\ 0 <= performanceScore a <= 100
  /\ inRange (overallScore a) = true
  /\ exists k, overallScore a = ofZ k /\ 0 <= k <= 100.
Proof.
  intros H. apply handler_report_inv in H.
  destruct H as (response & parsed & kd & sh & ri & si & isi
                 & l1 & l2 & l3 & l4 & l5 & l6 & l7 & _ & _ & _ & _ & _ & _ & _ & _ & _ & _ & H).
  apply report_scores in H. destruct H as (Ht & Hc & Hp & Ho).
  pose proof (technical_value (hasSSL a) (hasMobileViewport a) (canonicalUrl a)
                (robotsMeta a) (checkResourceHints (cheerio_load P (data response))) sh)
    as It.
  pose proof (content_value (textToCodeRatio a) (h1Count (headings a))
                (h2Count (headings a)) (keywordDensity a)) as Ic.
  pose proof (performance_value (scriptCount a) (cssCount a)) as Ip.
  rewrite <- Ht in It. rewrite <- Hc in Ic. rewrite <- Hp in Ip.
  destruct listed_scores_in_range as [Ft Fc].
  rewrite Forall_forall in Ft, Fc.
  split; [exact (Ft _ It)|]. split; [exact (Fc _ Ic)|].
  split; [rewrite Hp; unfold calculatePerformanceScore; lia|].
  rewrite Ho. split.
  - exact (onScores_spec _ weighted_in_range_on_scores _ _ _ It Ic Ip).
  - exists (weightedExact (technicalScore a) (contentScore a) (performanceScore a)).
    split.
    + apply FloatAxioms.Leibniz.eqb_spec.
      exact (onScores_spec agrees weighted_agrees_on_scores _ _ _ It Ic Ip).
    + pose proof (onScores_spec _ weighted_exact_in_range_on_scores _ _ _ It Ic Ip) as B.
      apply andb_prop in B. destruct B as [B1 B2].
      apply Z.leb_le in B1. apply Z.leb_le in B2. lia.
Qed.

Lemma scores_within_bounds_witness :
  exists a recs calls,
    handler Demo.platform Demo.world (VString "https://foo.example/") "2024-01-01T00:00:00.000Z"
    = (mkReply 200 (ReportBody "https://foo.example/" a recs), calls)
    /\ technicalScore a = 35 /\ contentScore a = 0 /\ performanceScore a = 100
    /\ (0 <= technicalScore a <= 100
        /\ 0 <= contentScore a <= 100
        /\ 0 <= performanceScore a <= 100
        /\ inRange (overallScore a) = true
        /\ exists k, overallScore a = ofZ k /\ 0 <= k <= 100).
Proof.
  do 3 eexists.
  split; [lazy; reflexivity|].
  split; [reflexivity|]. split; [reflexivity|]. split; [reflexivity|].
  eapply (scores_within_bounds Demo.platform Demo.world
            (VString "https://foo.example/") "2024-01-01T00:00:00.000Z").
  lazy. reflexivity.
Defined.

(** *** Computations that never throw, and the growth of the call log *)

Lemma returning_extending {A} (m : M A) : returning m -> extending m.
Proof.
  intros H log. destruct (H log) as (a & more & E). exists more. rewrite E. reflexivity.
Qed.

Lemma returning_ret {A} (a : A) : returning (ret a).
Proof. intros log. exists a, []. unfold ret. rewrite app_nil_r. reflexivity. Qed.

Lemma returning_bind {A B} (m : M A) (k : A -> M B) :
  returning m -> (forall a, returning (k a)) -> returning (bind m k).
Proof.
  intros Hm Hk log. destruct (Hm log) as (a & more & E).
  destruct (Hk a (log ++ more)%list) as (b & more' & E').
  exists b, (more ++ more')%list. unfold bind. rewrite E, E', app_assoc. reflexivity.
Qed.

Lemma extending_throw {A} (e : JsError) : extending (@throw A e).
Proof. intros log. exists []. unfold throw. cbn. rewrite app_nil_r. reflexivity. Qed.

Lemma extending_bind {A B} (m : M A) (k : A -> M B) :
  extending m -> (forall a, extending (k a)) -> extending (bind m k).
Proof.
  intros Hm Hk log. unfold bind. destruct (Hm log) as (more & E).
  destruct (m log) as [[a|e] l]; cbn in E; subst l.
  - destruct (Hk a (log ++ more)%list) as (more' & E').
    exists (more ++ more')%list. rewrite E', app_assoc. reflexivity.
  - exists more. reflexivity.
Qed.

Lemma extending_axios_get W anyStatus timeout url :
  extending (axios_get W anyStatus timeout url).
Proof. intros log. eexists [_]. reflexivity. Qed.

Lemma extending_axios_head W anyStatus timeout url :
  extending (axios_head W anyStatus timeout url).
Proof. intros log. eexists [_]. reflexivity. Qed.

Lemma extending_stringData message res : extending (stringData message res).
Proof.
  unfold stringData. destruct (textual res).
  - apply returning_extending, returning_ret.
  - apply extending_throw.
Qed.

Lemma extending_select P dollar selector : extending (select P dollar selector).
Proof.
  unfold select. destruct (Selector_error P selector).
  - apply extending_throw.
  - apply returning_extending, returning_ret.
Qed.

(** A [try] whose handler never throws never throws, whatever the network
    does inside it. *)
Lemma returning_tryCatch {A} (m : M A) (handler : JsError -> M A) :
  extending m -> (forall e, returning (handler e)) -> returning (tryCatch m handler).
Proof.
  intros Hm Hh log. unfold tryCatch. destruct (Hm log) as (more & E).
  destruct (m log) as [[a|e] l]; cbn in E; subst l.
  - exists a, more. reflexivity.
  - destruct (Hh e (log ++ more)%list) as (a & more' & E').
    exists a, (more ++ more')%list. rewrite E', app_assoc. reflexivity.
Qed.

Lemma extending_resolveUrl P rel base : extending (resolveUrl P rel base).
Proof.
  unfold resolveUrl. destruct (URL_href P rel base).
  - apply returning_extending, returning_ret.
  - apply extending_throw.
Qed.

Lemma returning_checkSecurityHeaders W url : returning (checkSecurityHeaders W url).
Proof.
  apply returning_tryCatch.
  - apply extending_bind; [apply extending_axios_head|].
    intros r. apply returning_extending, returning_ret.
  - intros e. apply returning_ret.
Qed.

Lemma returning_fetchRobotsTxt P W url : returning (fetchRobotsTxt P W url).
Proof.
  apply returning_tryCatch.
  - apply extending_bind; [apply extending_resolveUrl|]. intros ru.
    apply extending_bind; [apply extending_axios_get|]. intros res.
    destruct (400 <=? status (answer res));
      [apply returning_extending, returning_ret|].
    apply extending_bind; [apply extending_stringData|]. intros body.
    apply returning_extending, returning_ret.
  - intros e. apply returning_ret.
Qed.

Lemma returning_fetchXmlSitemap P W url : returning (fetchXmlSitemap P W url).
Proof.
  apply returning_tryCatch.
  - apply extending_bind; [apply extending_resolveUrl|]. intros ru.
    apply extending_bind; [apply extending_axios_get|]. intros res.
    destruct (400 <=? status (answer res)); apply returning_extending, returning_ret.
  - intros e. apply returning_ret.
Qed.

Lemma returning_sampleImage P W pageUrl img acc :
  returning (sampleImage P W pageUrl img acc).
Proof.
  unfold sampleImage.
  destruct (attr "src" img) as [src|]; [|apply returning_ret].
  destruct (negb (JsString.truthy src)); [apply returning_ret|].
  destruct (URL_href P src pageUrl) as [abs|]; [|apply returning_ret].
  apply returning_tryCatch.
  - apply extending_bind; [apply extending_axios_head|]. intros head.
    destruct (parseInt _) as [len|]; [|apply returning_extending, returning_ret].
    destruct (len =? 0); apply returning_extending, returning_ret.
  - intros e. apply returning_ret.
Qed.

Lemma returning_sampleImages P W pageUrl imgs :
  forall acc, returning (sampleImages P W pageUrl imgs acc).
Proof.
  induction imgs as [|img rest IH]; intros acc; cbn [sampleImages].
  - apply returning_ret.
  - apply returning_bind; [apply returning_sampleImage|]. intros acc'. apply IH.
Qed.

Lemma returning_checkImageSizes P W dollar pageUrl limit :
  returning (checkImageSizes P W dollar pageUrl limit).
Proof.
  unfold checkImageSizes. apply returning_bind; [apply returning_sampleImages|].
  intros [total counted]. apply returning_ret.
Qed.

Lemma extending_parseUrl P url : extending (parseUrl P url).
Proof.
  unfold parseUrl. destruct (URL_parse P url).
  - apply returning_extending, returning_ret.
  - apply extending_throw.
Qed.

Lemma extending_estimateKeywordDensity P title bodyText :
  extending (estimateKeywordDensity P title bodyText).
Proof.
  unfold estimateKeywordDensity.
  destruct (_ && _); [|apply returning_extending, returning_ret].
  destruct (potentialKeywords title) as [|keyword rest];
    [apply returning_extending, returning_ret|].
  destruct (RegExp_gi P keyword).
  - apply returning_extending, returning_ret.
  - apply extending_throw.
Qed.

(** Once the URL has passed the guard, the first call handed to axios is
    the GET of that URL, as it is. *)
Lemma bind_first {A B} (m : M A) (k : A -> M B) (log first : Log) :
  snd (m log) = (log ++ first)%list -> (forall a, extending (k a)) ->
  exists more, snd (bind m k log) = (log ++ first ++ more)%list.
Proof.
  intros Hm Hk. unfold bind. destruct (m log) as [[a|e] l]; cbn in Hm; subst l.
  - destruct (Hk a (log ++ first)%list) as (more & E).
    exists more. rewrite E, app_assoc. reflexivity.
  - exists []. rewrite app_nil_r. reflexivity.
Qed.

Lemma analyze_calls_start_with_get P W url now :
  JsString.truthy url = true ->
  exists rest, callsOf (snd (analyze P W url now [])) = GET url :: rest.
Proof.
  intros Hurl. unfold analyze. rewrite Hurl. cbn [negb].
  match goal with
  | |- context [bind ?m ?k []] =>
      destruct (bind_first m k []
                  [(GET url, spent 30000 (http_get W url) (get_ms W url))])
        as (more & E)
  end.
  - reflexivity.
  - intros page.
    apply extending_bind; [apply extending_stringData|]. intros html. cbv zeta.
    apply extending_bind; [apply extending_parseUrl|]. intros parsed.
    apply extending_bind; [apply extending_select|]. intros els1.
    apply extending_bind; [apply extending_select|]. intros els2.
    apply extending_bind; [apply extending_estimateKeywordDensity|]. intros kd.
    apply extending_bind;
      [apply returning_extending, returning_checkSecurityHeaders|]. intros sh.
    apply extending_bind; [apply returning_extending, returning_fetchRobotsTxt|].
    intros ri.
    apply extending_bind; [apply returning_extending, returning_fetchXmlSitemap|].
    intros si.
    apply extending_bind; [apply returning_extending, returning_checkImageSizes|].
    intros isi. apply returning_extending, returning_ret.
  - exists (callsOf more). rewrite E. reflexivity.
Qed.

(** C5, as the handler implements it.  A [url] field that is missing,
    falsy (the empty string among others) or not a string is answered
    with status 400 before any call is made; a non-empty string is handed
    to the primary GET as it is, whether or not it is a URL. *)
Theorem url_guard P W (v : JsValue) (now : string) :
  (falsy v = true \/ isString v = false ->
   handler P W v now = (mkReply 400 (ErrorBody "Invalid URL provided" None), []))
  /\ (forall s, v = VString s -> JsString.truthy s = true ->
      exists rest, snd (handler P W v now) = GET s :: rest).
Proof.
  split.
  - intros H. unfold handler.
    replace (falsy v || negb (isString v)) with true; [reflexivity|].
    destruct H as [H|H]; rewrite H; [reflexivity|symmetry; apply orb_true_r].
  - intros s -> Hs. unfold handler. cbn [falsy isString stringOf].
    rewrite Hs. cbn [negb orb].
    destruct (analyze_calls_start_with_get P W s now Hs) as (rest & E).
    exists rest. destruct (analyze P W s now []) as [outcome log]. exact E.
Qed.

Lemma url_guard_witness :
  handler Demo.platform Demo.world VUndefined "2024-01-01T00:00:00.000Z"
  = (mkReply 400 (ErrorBody "Invalid URL provided" None), [])
  /\ handler Demo.platform Demo.world (VNumber 42) "2024-01-01T00:00:00.000Z"
     = (mkReply 400 (ErrorBody "Invalid URL provided" None), [])
  /\ exists rest,
       snd (handler Demo.platform Demo.world (VString "not a url")
              "2024-01-01T00:00:00.000Z")
       = GET "not a url" :: rest.
Proof.
  split; [|split].
  - apply (proj1 (url_guard Demo.platform Demo.world VUndefined
                    "2024-01-01T00:00:00.000Z")).
    left. reflexivity.
  - apply (proj1 (url_guard Demo.platform Demo.world (VNumber 42)
                    "2024-01-01T00:00:00.000Z")).
    right. reflexivity.
  - apply (proj2 (url_guard Demo.platform Demo.world (VString "not a url")
                    "2024-01-01T00:00:00.000Z") "not a url"); reflexivity.
Defined.

(** C5 as stated fails: the string "not a url" does not parse as a URL, yet
    the handler hands it to axios, and here the reply is a 500. *)
Lemma malformed_url_reaches_the_fetcher :
  URL_parse Demo.platform "not a url" = None
  /\ handler Demo.platform Demo.world (VString "not a url") "2024-01-01T00:00:00.000Z"
     = (mkReply 500 (ErrorBody "Failed to analyze URL" (Some "Invalid URL")),
        [GET "not a url"])
  /\ ~ (replyStatus (fst (handler Demo.platform Demo.world (VString "not a url")
                            "2024-01-01T00:00:00.000Z")) = 400
        /\ snd (handler Demo.platform Demo.world (VString "not a url")
                  "2024-01-01T00:00:00.000Z") = []).
Proof.
  split; [reflexivity|]. split; [vm_compute; reflexivity|].
  intros [H _]. vm_compute in H. discriminate H.
Qed.

(** *** The security-header probe *)



(** What axios does with the outcome of a GET. *)
Lemma axios_get_responded W anyStatus timeout url r log :
  http_get W url = Responded r ->
  anyStatus || accepted r = true ->
  axios_get W anyStatus timeout url log
  = (Ok (mkDelivered r true),
     (log ++ [(GET url, N.min (get_ms W url) (timeout - 1))])%list).
Proof.
  intros Hget Hok. unfold axios_get, deliver, spent, accepted in *. cbv zeta.
  rewrite Hget, Hok. reflexivity.
Qed.

Lemma axios_get_rejected W timeout url o r log :
  http_get W url = o -> responseOf o = Some r -> accepted r = false ->
  axios_get W false timeout url log
  = (Throw (AxiosBadStatus r),
     (log ++ [(GET url, N.min (get_ms W url) (timeout - 1))])%list).
Proof.
  intros Hget Hr Hbad. unfold axios_get, deliver, spent, accepted in *. cbv zeta.
  rewrite Hget. destruct o as [r'|e|r']; cbn in Hr; try discriminate Hr;
    injection Hr as ->; cbn [orb]; rewrite Hbad; reflexivity.
Qed.

Lemma axios_get_unreachable W anyStatus timeout url e log :
  http_get W url = Unreachable e ->
  axios_get W anyStatus timeout url log
  = (Throw (AxiosNoResponse e),
     (log ++ [(GET url, N.min (get_ms W url) timeout)])%list).
Proof.
  intros Hget. unfold axios_get, deliver, spent. cbv zeta.
  rewrite Hget. reflexivity.
Qed.


(** The reply of the handler, by the run of its [try] block. *)
Lemma handler_of_run P W url now outcome log :
  JsString.truthy url = true ->
  analyze P W url now [] = (outcome, log) ->
  handler P W (VString url) now
  = (if guardFired log then timedOut
     else match outcome with
          | Ok reply => reply
          | Throw error => onError error
          end,
     callsOf log).
Proof.
  intros Hurl Hrun. unfold handler. cbn [falsy isString stringOf].
  rewrite Hurl. cbn [negb orb]. rewrite Hrun. reflexivity.
Qed.





(** *** The robots.txt probe *)









(** *** Two runs on the same page and network *)

Lemma report_without_timestamp P url now1 now2 response parsed kd sh ri si isi calls :
  withoutTimestamp
    (mkReply 200 (report P url now1 response parsed kd sh ri si isi), calls)
  = withoutTimestamp
      (mkReply 200 (report P url now2 response parsed kd sh ri si isi), calls).
Proof.
  unfold report, linkSelectors. cbv zeta beta iota. reflexivity.
Qed.

(** C8. Two runs of the handler on the same request, with the same
    platform and the same network, send the same reply and make the same
    calls; only the [timestamp] field of the report follows the clock. *)
Theorem two_runs_differ_only_in_timestamp P W (url : JsValue) (now1 now2 : string) :
  withoutTimestamp (handler P W url now1) = withoutTimestamp (handler P W url now2).
Proof.
  unfold handler.
  destruct (falsy url || negb (isString url)); [reflexivity|].
  unfold analyze.
  destruct (negb (JsString.truthy (stringOf url))); [reflexivity|].
  unfold bind.
  destruct (axios_get W false 30000 (stringOf url) []) as [[page|e] l1]; [|reflexivity].
  destruct (stringData (Markup_error P) page l1) as [[html|e] l1']; [|reflexivity].
  cbv zeta.
  destruct (parseUrl P (stringOf url) l1') as [[parsed|e] l2]; [|reflexivity].
  destruct (select P _ _ l2) as [[els1|e] l2']; [|reflexivity].
  destruct (select P _ _ l2') as [[els2|e] l2'']; [|reflexivity].
  destruct (estimateKeywordDensity P _ _ l2'') as [[kd|e] l3]; [|reflexivity].
  destruct (checkSecurityHeaders W (stringOf url) l3) as [[sh|e] l4]; [|reflexivity].
  destruct (fetchRobotsTxt P W (stringOf url) l4) as [[ri|e] l5]; [|reflexivity].
  destruct (fetchXmlSitemap P W (stringOf url) l5) as [[si|e] l6]; [|reflexivity].
  destruct (checkImageSizes P W _ (stringOf url) 5 l6) as [[isi|e] l7]; [|reflexivity].
  unfold ret. destruct (guardFired l7); [reflexivity|].
  apply report_without_timestamp.
Qed.

(** *** Keyword density *)

(** The divisor of the density is never zero; the [|| 1] of the source is
    never used, since a split has at least one piece. *)
Lemma splitWsFrom_nonempty (inRun : bool) (s : string) : splitWsFrom inRun s <> [].
Proof.
  revert inRun; induction s as [|c s IH]; intros inRun; cbn [splitWsFrom].
  - discriminate.
  - destruct (isWhiteSpace c).
    + destruct inRun; [apply IH|discriminate].
    + destruct (splitWsFrom false s); discriminate.
Qed.

Lemma wordCount_positive (bodyText : string) : (1 <= wordCount bodyText)%nat.
Proof.
  unfold wordCount, splitWs.
  pose proof (splitWsFrom_nonempty false bodyText) as H.
  destruct (splitWsFrom false bodyText) as [|w ws]; [contradiction|].
  cbn. lia.
Qed.

(** When the estimate returns, it makes no call, and it is 0 or a quotient
    of a match count by a word count of 1 or more, times 100. *)
Lemma keyword_density_when_returned P title bodyText log kd log' :
  estimateKeywordDensity P title bodyText log = (Ok kd, log') ->
  log' = log
  /\ (kd = 0%float
      \/ exists matches words, (1 <= words)%nat /\ kd = density matches words).
Proof.
  unfold estimateKeywordDensity.
  destruct (_ && _); [|intros H; injection H as <- <-; auto].
  destruct (potentialKeywords title) as [|keyword rest];
    [intros H; injection H as <- <-; auto|].
  destruct (RegExp_gi P keyword) as [countMatches|msg]; [|discriminate].
  intros H. injection H as <- <-. split; [reflexivity|]. right.
  exists (countMatches bodyText), (wordCount bodyText).
  split; [apply wordCount_positive|reflexivity].
Qed.

(** A primary GET that axios answers has taken less than its time-out,
    which is the delay of the guard. *)
Lemma guard_after_answer (c : Call) (ms : N) :
  guardFired [(c, N.min ms (30000 - 1))] = false.
Proof.
  unfold guardFired, guardDelay, elapsed. cbn [fold_right snd].
  apply N.leb_gt. lia.
Qed.

(** C10 fails on a title whose first candidate keyword is not a pattern
    the [RegExp] constructor accepts: the SyntaxError leaves the [try]
    block after the primary GET alone, and the reply is a 500.  Its message
    is that of the constructor, unless one of the link selectors built
    from [url], which are parsed before, has been refused with its own. *)
Theorem keyword_pattern_error_aborts_analysis
    P W url now response parsed keyword rest msg :
  JsString.truthy url = true ->
  http_get W url = Responded response ->
  200 <= status response < 300 ->
  URL_parse P url = Some parsed ->
  JsString.truthy (pageTitle (cheerio_load P (data response))) = true ->
  JsString.truthy (pageBodyText (cheerio_load P (data response))) = true ->
  potentialKeywords (pageTitle (cheerio_load P (data response))) = keyword :: rest ->
  RegExp_gi P keyword = inr msg ->
  handler P W (VString url) now
  = (mkReply 500
       (ErrorBody "Failed to analyze URL"
          (Some match linkSelectorError P url parsed with
                | Some refused => refused
                | None => msg
                end)),
     [GET url]).
Proof.
  intros Hurl Hget Hstatus Hparse Htitle Hbody Hkw Hre.
  assert (Hrun : analyze P W url now []
                 = (Throw match linkSelectorError P url parsed with
                          | Some refused => Error refused
                          | None => SyntaxError msg
                          end,
                    [(GET url, N.min (get_ms W url) (30000 - 1))])).
  { unfold analyze. rewrite Hurl. cbn [negb].
    unfold bind at 1.
    rewrite (axios_get_responded W false 30000 url response [] Hget)
      by (unfold accepted; apply andb_true_intro; split;
          [apply Z.leb_le|apply Z.ltb_lt]; lia).
    unfold bind at 1, stringData at 1. cbn [textual answer app]. unfold ret at 1.
    cbv zeta.
    unfold bind at 1, parseUrl at 1. rewrite Hparse. unfold ret at 1.
    unfold linkSelectorError.
    unfold bind at 1, select at 1.
    destruct (Selector_error P (fst _)) as [refused|]; [reflexivity|].
    unfold ret at 1. unfold bind at 1, select at 1.
    destruct (Selector_error P (snd _)) as [refused|]; [reflexivity|].
    unfold ret at 1. unfold bind at 1, estimateKeywordDensity at 1.
    rewrite Htitle, Hbody, Hkw, Hre. reflexivity. }
  rewrite (handler_of_run P W url now _ _ Hurl Hrun), guard_after_answer.
  destruct (linkSelectorError P url parsed); reflexivity.
Qed.

Lemma keyword_pattern_error_aborts_analysis_witness :
  pageTitle (Demo.load Demo.starsPage) = "**** Deals"
  /\ handler Demo.platform Demo.world (VString "https://stars.example/")
       "2024-01-01T00:00:00.000Z"
     = (mkReply 500
          (ErrorBody "Failed to analyze URL"
             (Some "Invalid regular expression: /****/gi: Nothing to repeat")),
        [GET "https://stars.example/"]).
Proof.
  split; [reflexivity|].
  apply (keyword_pattern_error_aborts_analysis Demo.platform Demo.world
           "https://stars.example/" "2024-01-01T00:00:00.000Z"
           (mkResponse 200 "OK" [] Demo.starsPage) (mkURL "stars.example" "/")
           "****" ["deals"]).
  - reflexivity.
  - reflexivity.
  - cbn. lia.
  - reflexivity.
  - reflexivity.
  - reflexivity.
  - reflexivity.
  - reflexivity.
Defined.

(* ===================================================================== *)
(** ** Further properties of the handler and its closures *)
(* ===================================================================== *)

(** *** How the primary fetch decides the reply *)

Lemma analyze_after_get P W url now e :
  JsString.truthy url = true ->
  deliver false (http_get W url) = Throw e ->
  analyze P W url now []
  = (Throw e, [(GET url, spent 30000 (http_get W url) (get_ms W url))]).
Proof.
  intros Hurl He. unfold analyze. rewrite Hurl. cbn [negb].
  unfold bind at 1, axios_get at 1. cbv zeta. rewrite He. reflexivity.
Qed.



(** X2. When the primary GET gets no response before 30 s have passed, the
    reply is a 400 "could not connect" for the codes ENOTFOUND and
    ECONNREFUSED and a 500 that carries the error's message for every
    other code.  When the GET has taken the 30 s, which is where axios
    itself gives up, the guard of the handler has answered first, with
    its 504.  No other call is made. *)
Theorem unreachable_page_reply P W url now e :
  JsString.truthy url = true ->
  http_get W url = Unreachable e ->
  handler P W (VString url) now
  = (if (30000 <=? get_ms W url)%N
     then mkReply 504
            (ErrorBody "Request timed out. The website may be too slow to respond."
               None)
     else if String.eqb (code e) "ENOTFOUND" || String.eqb (code e) "ECONNREFUSED"
     then mkReply 400
            (ErrorBody
               "Could not connect to the website. Please check the URL and try again."
               None)
     else mkReply 500 (ErrorBody "Failed to analyze URL" (Some (message e))),
     [GET url]).
Proof.
  intros Hurl Hget.
  assert (He : deliver false (http_get W url) = Throw (AxiosNoResponse e))
    by (rewrite Hget; reflexivity).
  rewrite (handler_of_run P W url now _ _ Hurl
             (analyze_after_get P W url now _ Hurl He)).
  rewrite Hget. unfold guardFired, guardDelay, elapsed, spent.
  cbn [fold_right snd callsOf map fst]. rewrite N.add_0_r.
  replace (30000 <=? N.min (get_ms W url) 30000)%N with (30000 <=? get_ms W url)%N.
  - destruct (30000 <=? get_ms W url)%N; [reflexivity|].
    cbn [onError]. destruct (_ || _); reflexivity.
  - destruct (N.leb_spec 30000 (get_ms W url)) as [L|L];
      symmetry; [apply N.leb_le|apply N.leb_gt]; lia.
Qed.

Lemma unreachable_page_reply_witness :
  handler Demo.platform Demo.world (VString "not a url") "2024-01-01T00:00:00.000Z"
  = (mkReply 500 (ErrorBody "Failed to analyze URL" (Some "Invalid URL")),
     [GET "not a url"])
  /\ handler Demo.platform Demo.silentWorld
       (VString "https://slow.example/") "2024-01-01T00:00:00.000Z"
     = (mkReply 504
          (ErrorBody "Request timed out. The website may be too slow to respond."
             None),
        [GET "https://slow.example/"]).
Proof.
  split.
  - apply (unreachable_page_reply Demo.platform Demo.world "not a url"
             "2024-01-01T00:00:00.000Z"
             (mkNetworkError "ERR_INVALID_URL" "Invalid URL")).
    + reflexivity.
    + reflexivity.
  - apply (unreachable_page_reply Demo.platform Demo.silentWorld
             "https://slow.example/"
             "2024-01-01T00:00:00.000Z"
             (mkNetworkError "ECONNABORTED" "timeout of 30000ms exceeded")).
    + reflexivity.
    + reflexivity.
Defined.





(** *** How many calls a request costs *)

Lemma atMost_weaken {A} (n n' : nat) (m : M A) :
  (n <= n')%nat -> atMost n m -> atMost n' m.
Proof.
  intros Hn H log. destruct (H log) as (more & E & L). exists more. split; [exact E|lia].
Qed.

Lemma atMost_ret {A} (a : A) : atMost 0 (ret a).
Proof. intros log. exists []. cbn. rewrite app_nil_r. split; [reflexivity|lia]. Qed.

Lemma atMost_throw {A} (e : JsError) : atMost 0 (@throw A e).
Proof. intros log. exists []. cbn. rewrite app_nil_r. split; [reflexivity|lia]. Qed.

Lemma atMost_bind {A B} (n k : nat) (m : M A) (f : A -> M B) :
  atMost n m -> (forall a, atMost k (f a)) -> atMost (n + k) (bind m f).
Proof.
  intros Hm Hf log. unfold bind. destruct (Hm log) as (more & E & L).
  destruct (m log) as [[a|e] l]; cbn in E; subst l.
  - destruct (Hf a (log ++ more)%list) as (more' & E' & L').
    exists (more ++ more')%list. rewrite E', app_assoc, length_app.
    split; [reflexivity|lia].
  - exists more. split; [reflexivity|lia].
Qed.

Lemma atMost_tryCatch {A} (n k : nat) (m : M A) (h : JsError -> M A) :
  atMost n m -> (forall e, atMost k (h e)) -> atMost (n + k) (tryCatch m h).
Proof.
  intros Hm Hh log. unfold tryCatch. destruct (Hm log) as (more & E & L).
  destruct (m log) as [[a|e] l]; cbn in E; subst l.
  - exists more. split; [reflexivity|lia].
  - destruct (Hh e (log ++ more)%list) as (more' & E' & L').
    exists (more ++ more')%list. rewrite E', app_assoc, length_app.
    split; [reflexivity|lia].
Qed.

Lemma atMost_axios_get W anyStatus timeout url :
  atMost 1 (axios_get W anyStatus timeout url).
Proof. intros log. eexists [_]. split; [reflexivity|cbn; lia]. Qed.

Lemma atMost_axios_head W anyStatus timeout url :
  atMost 1 (axios_head W anyStatus timeout url).
Proof. intros log. eexists [_]. split; [reflexivity|cbn; lia]. Qed.

Lemma atMost_stringData message res : atMost 0 (stringData message res).
Proof.
  unfold stringData. destruct (textual res); [apply atMost_ret|apply atMost_throw].
Qed.

Lemma atMost_select P dollar selector : atMost 0 (select P dollar selector).
Proof.
  unfold select. destruct (Selector_error P selector);
    [apply atMost_throw|apply atMost_ret].
Qed.

Lemma atMost_resolveUrl P rel base : atMost 0 (resolveUrl P rel base).
Proof.
  unfold resolveUrl. destruct (URL_href P rel base);
    [apply atMost_ret|apply atMost_throw].
Qed.

Lemma atMost_checkSecurityHeaders W url : atMost 1 (checkSecurityHeaders W url).
Proof.
  apply (atMost_tryCatch 1 0).
  - apply (atMost_bind 1 0); [apply atMost_axios_head|]. intros r. apply atMost_ret.
  - intros e. apply atMost_ret.
Qed.

Lemma atMost_fetchRobotsTxt P W url : atMost 1 (fetchRobotsTxt P W url).
Proof.
  apply (atMost_tryCatch 1 0).
  - apply (atMost_bind 0 1); [apply atMost_resolveUrl|]. intros ru.
    apply (atMost_bind 1 0); [apply atMost_axios_get|]. intros res.
    destruct (400 <=? status (answer res)); [apply atMost_ret|].
    apply (atMost_bind 0 0); [apply atMost_stringData|]. intros body.
    apply atMost_ret.
  - intros e. apply atMost_ret.
Qed.

Lemma atMost_fetchXmlSitemap P W url : atMost 1 (fetchXmlSitemap P W url).
Proof.
  apply (atMost_tryCatch 1 0).
  - apply (atMost_bind 0 1); [apply atMost_resolveUrl|]. intros ru.
    apply (atMost_bind 1 0); [apply atMost_axios_get|]. intros res.
    destruct (400 <=? status (answer res)); apply atMost_ret.
  - intros e. apply atMost_ret.
Qed.

Lemma atMost_sampleImage P W pageUrl img acc :
  atMost 1 (sampleImage P W pageUrl img acc).
Proof.
  unfold sampleImage.
  destruct (attr "src" img) as [src|];
    [|apply (atMost_weaken 0); [lia|apply atMost_ret]].
  destruct (negb (JsString.truthy src));
    [apply (atMost_weaken 0); [lia|apply atMost_ret]|].
  destruct (URL_href P src pageUrl) as [abs|];
    [|apply (atMost_weaken 0); [lia|apply atMost_ret]].
  apply (atMost_tryCatch 1 0).
  - apply (atMost_bind 1 0); [apply atMost_axios_head|]. intros head.
    destruct (parseInt _) as [len|]; [|apply atMost_ret].
    destruct (len =? 0); apply atMost_ret.
  - intros e. apply atMost_ret.
Qed.

Lemma atMost_sampleImages P W pageUrl imgs :
  forall acc, atMost (List.length imgs) (sampleImages P W pageUrl imgs acc).
Proof.
  induction imgs as [|img rest IH]; intros acc; cbn [sampleImages List.length].
  - apply atMost_ret.
  - apply (atMost_bind 1 (List.length rest)); [apply atMost_sampleImage|].
    intros acc'. apply IH.
Qed.

Lemma atMost_checkImageSizes P W dollar pageUrl limit :
  atMost limit (checkImageSizes P W dollar pageUrl limit).
Proof.
  unfold checkImageSizes.
  apply (atMost_weaken (List.length (firstn limit (dollar "img")) + 0)).
  - rewrite Nat.add_0_r. apply firstn_le_length.
  - apply atMost_bind; [apply atMost_sampleImages|].
    intros [total counted]. apply atMost_ret.
Qed.

Lemma atMost_analyze P W url now : atMost 9 (analyze P W url now).
Proof.
  unfold analyze.
  destruct (negb (JsString.truthy url));
    [apply (atMost_weaken 0); [lia|apply atMost_ret]|].
  apply (atMost_bind 1 8); [apply atMost_axios_get|]. intros page.
  apply (atMost_bind 0 8); [apply atMost_stringData|]. intros html. cbv zeta.
  apply (atMost_bind 0 8).
  { unfold parseUrl. destruct (URL_parse P url); [apply atMost_ret|apply atMost_throw]. }
  intros parsed.
  apply (atMost_bind 0 8); [apply atMost_select|]. intros els1.
  apply (atMost_bind 0 8); [apply atMost_select|]. intros els2.
  apply (atMost_bind 0 8).
  { unfold estimateKeywordDensity. destruct (_ && _); [|apply atMost_ret].
    destruct (potentialKeywords _) as [|keyword rest]; [apply atMost_ret|].
    destruct (RegExp_gi P keyword); [apply atMost_ret|apply atMost_throw]. }
  intros kd.
  apply (atMost_bind 1 7); [apply atMost_checkSecurityHeaders|]. intros sh.
  apply (atMost_bind 1 6); [apply atMost_fetchRobotsTxt|]. intros ri.
  apply (atMost_bind 1 5); [apply atMost_fetchXmlSitemap|]. intros si.
  apply (atMost_bind 5 0); [apply atMost_checkImageSizes|]. intros isi.
  apply atMost_ret.
Qed.

(** X4. Whatever the request, the page and the network, one request to the
    handler costs at most nine calls: the primary GET, the HEAD for the
    security headers, the GETs of robots.txt and sitemap.xml, and at most
    five HEADs for image sizes. *)
Theorem handler_makes_at_most_nine_calls P W (url : JsValue) (now : string) :
  (List.length (snd (handler P W url now)) <= 9)%nat.
Proof.
  unfold handler.
  destruct (falsy url || negb (isString url)); [cbn; lia|].
  destruct (atMost_analyze P W (stringOf url) now []) as (more & E & L).
  destruct (analyze P W (stringOf url) now []) as [outcome log].
  cbn in E. subst log. cbn [snd]. unfold callsOf. rewrite length_map. exact L.
Qed.

(** *** The sitemap probe *)

Lemma fetchXmlSitemap_spec P W url sitemapUrl log :
  URL_href P "/sitemap.xml" url = Some sitemapUrl ->
  fetchXmlSitemap P W url log
  = (Ok (sitemapOutcome P (http_get W sitemapUrl)),
     (log ++ [(GET sitemapUrl,
               spent 15000 (http_get W sitemapUrl) (get_ms W sitemapUrl))])%list).
Proof.
  intros H.
  unfold fetchXmlSitemap, tryCatch, bind, resolveUrl, axios_get, sitemapOutcome,
    deliver.
  rewrite H. unfold ret. cbv zeta.
  destruct (http_get W sitemapUrl) as [res|e|res]; cbn [orb answer textual];
    [|reflexivity|];
    destruct (400 <=? status res); reflexivity.
Qed.

Lemma report_sitemap P url now response parsed kd sh ri si isi u a recs :
  report P url now response parsed kd sh ri si isi = ReportBody u a recs ->
  sitemapInfo a = si
  /\ (sitemapExists si = false ->
      In "Add a sitemap.xml and reference it in robots.txt" recs).
Proof.
  unfold report, linkSelectors. cbv zeta beta iota.
  intros H. injection H as _ <- <-. split; [reflexivity|].
  intros Hsi. rewrite Hsi. cbn [negb pushIf].
  apply in_or_app. right. apply in_or_app. right. left. reflexivity.
Qed.

(** X5. In every report, a GET of sitemap.xml that gets no response or a
    status of 400 or more gives [sitemapInfo.exists = false] and the
    recommendation to add a sitemap; a status below 400 gives
    [exists = true], with the number of [url] entries the XML parser finds
    under [urlset]: 1 for a single entry, and 0 when there is none or when
    the parser throws; so it is for a body that axios delivers as a parsed
    JSON value, which the parser is given as it is. *)
Theorem sitemap_probe_outcomes P W url now st a recs calls sitemapUrl :
  handler P W (VString url) now = (mkReply st (ReportBody url a recs), calls) ->
  URL_href P "/sitemap.xml" url = Some sitemapUrl ->
  match http_get W sitemapUrl with
  | Unreachable _ =>
      sitemapExists (sitemapInfo a) = false
      /\ In "Add a sitemap.xml and reference it in robots.txt" recs
  | Responded res =>
      if 400 <=? status res
      then sitemapExists (sitemapInfo a) = false
           /\ In "Add a sitemap.xml and reference it in robots.txt" recs
      else match XMLParser_parse P (data res) with
           | Some (UrlArray n) => sitemapInfo a = SitemapFound n
           | Some UrlSingle => sitemapInfo a = SitemapFound 1
           | Some UrlAbsent | None => sitemapInfo a = SitemapFound 0
           end
  | RespondedJson res =>
      if 400 <=? status res
      then sitemapExists (sitemapInfo a) = false
           /\ In "Add a sitemap.xml and reference it in robots.txt" recs
      else match XMLParser_parse_value P (data res) with
           | Some (UrlArray n) => sitemapInfo a = SitemapFound n
           | Some UrlSingle => sitemapInfo a = SitemapFound 1
           | Some UrlAbsent | None => sitemapInfo a = SitemapFound 0
           end
  end.
Proof.
  intros H Hhref. apply handler_report_inv in H.
  destruct H as (response & parsed & kd & sh & ri & si & isi
                 & l1 & l2 & l3 & l4 & l5 & l6 & l7
                 & _ & _ & _ & _ & _ & _ & _ & _ & R6 & _ & H).
  apply report_sitemap in H. destruct H as [Hsi Hrec].
  rewrite (fetchXmlSitemap_spec P W url sitemapUrl l5 Hhref) in R6.
  injection R6 as Hval _. rewrite Hsi, <- Hval in *. clear Hsi Hval.
  unfold sitemapOutcome in *.
  destruct (http_get W sitemapUrl) as [res|e|res].
  - destruct (400 <=? status res).
    + split; [reflexivity|apply Hrec; reflexivity].
    + destruct (XMLParser_parse P (data res)) as [[| |n]|]; reflexivity.
  - split; [reflexivity|apply Hrec; reflexivity].
  - destruct (400 <=? status res).
    + split; [reflexivity|apply Hrec; reflexivity].
    + destruct (XMLParser_parse_value P (data res)) as [[| |n]|]; reflexivity.
Qed.

Lemma sitemap_probe_outcomes_witness :
  exists a recs calls,
    handler Demo.platform Demo.world (VString "https://foo.example/")
      "2024-01-01T00:00:00.000Z"
    = (mkReply 200 (ReportBody "https://foo.example/" a recs), calls)
    /\ sitemapExists (sitemapInfo a) = false
    /\ In "Add a sitemap.xml and reference it in robots.txt" recs.
Proof.
  do 3 eexists. split; [lazy; reflexivity|].
  eapply (sitemap_probe_outcomes Demo.platform Demo.world "https://foo.example/"
            "2024-01-01T00:00:00.000Z" 200 _ _ _ "https://foo.example/sitemap.xml").
  - lazy. reflexivity.
  - reflexivity.
Defined.

(** *** Image-size sampling *)

Lemma sampleImage_bounds P W pageUrl img t c log :
  exists t' c' more,
    sampleImage P W pageUrl img (t, c) log = (Ok (t', c'), (log ++ more)%list)
    /\ (c' <= c + List.length more)%nat
    /\ (List.length more <= 1)%nat
    /\ forallb isHead (callsOf more) = true.
Proof.
  assert (Stay : exists t' c' more,
             ret (t, c) log = (Ok (t', c'), (log ++ more)%list)
             /\ (c' <= c + List.length more)%nat
             /\ (List.length more <= 1)%nat
             /\ forallb isHead (callsOf more) = true).
  { exists t, c, []. unfold ret. rewrite app_nil_r. cbn. repeat split; lia. }
  unfold sampleImage.
  destruct (attr "src" img) as [src|]; [|exact Stay].
  destruct (negb (JsString.truthy src)); [exact Stay|].
  destruct (URL_href P src pageUrl) as [abs|]; [|exact Stay].
  unfold tryCatch, bind, axios_head. cbv zeta.
  destruct (deliver true (http_head W abs)) as [head|e].
  - destruct (parseInt _) as [len|].
    + destruct (len =? 0); unfold ret; cbn [fst snd].
      * exists t, c. eexists [(HEAD abs, _)]. cbn. repeat split; lia.
      * exists (t + ofZ len)%float, (S c). eexists [(HEAD abs, _)].
        cbn. repeat split; lia.
    + unfold ret. exists t, c. eexists [(HEAD abs, _)]. cbn. repeat split; lia.
  - unfold ret. exists t, c. eexists [(HEAD abs, _)]. cbn. repeat split; lia.
Qed.

Lemma sampleImages_bounds P W pageUrl imgs :
  forall t c log,
  exists t' c' more,
    sampleImages P W pageUrl imgs (t, c) log = (Ok (t', c'), (log ++ more)%list)
    /\ (c' <= c + List.length more)%nat
    /\ (List.length more <= List.length imgs)%nat
    /\ forallb isHead (callsOf more) = true.
Proof.
  induction imgs as [|img rest IH]; intros t c log; cbn [sampleImages].
  - exists t, c, []. unfold ret. rewrite app_nil_r. cbn. repeat split; lia.
  - destruct (sampleImage_bounds P W pageUrl img t c log)
      as (t1 & c1 & m1 & E1 & B1 & L1 & H1).
    destruct (IH t1 c1 (log ++ m1)%list) as (t2 & c2 & m2 & E2 & B2 & L2 & H2).
    exists t2, c2, (m1 ++ m2)%list. unfold bind. rewrite E1, E2, app_assoc.
    unfold callsOf in *. rewrite length_app, map_app, forallb_app, H1, H2.
    cbn [List.length]. repeat split; lia.
Qed.

Lemma checkImageSizes_bounds P W dollar pageUrl limit log :
  exists info more,
    checkImageSizes P W dollar pageUrl limit log = (Ok info, (log ++ more)%list)
    /\ (sampled info <= List.length more)%nat
    /\ (List.length more <= limit)%nat
    /\ (List.length more <= List.length (dollar "img"))%nat
    /\ forallb isHead (callsOf more) = true
    /\ (if (sampled info =? 0)%nat then avgSize info = 0%float else True).
Proof.
  unfold checkImageSizes.
  destruct (sampleImages_bounds P W pageUrl (firstn limit (dollar "img")) 0%float 0%nat log)
    as (t & c & more & E & B & L & H).
  unfold bind. rewrite E. unfold ret.
  eexists. exists more. split; [reflexivity|]. cbn [sampled avgSize].
  pose proof (firstn_le_length limit (dollar "img")) as F1.
  assert (F2 : (List.length (firstn limit (dollar "img"))
                <= List.length (dollar "img"))%nat).
  { rewrite length_firstn. lia. }
  repeat split; try lia; try exact H.
  destruct (c =? 0)%nat; [reflexivity|exact I].
Qed.

Lemma report_images P url now response parsed kd sh ri si isi u a recs :
  report P url now response parsed kd sh ri si isi = ReportBody u a recs ->
  imageSizeInfo a = isi
  /\ imgCount a = List.length (cheerio_load P (data response) "img").
Proof.
  unfold report, linkSelectors. cbv zeta beta iota.
  intros H. injection H as _ <- _. split; reflexivity.
Qed.

(** X6. In every report, the number of images whose size was sampled is at
    most five and at most the number of images of the page, and the
    average size is 0 when no image was sampled. *)
Theorem image_sampling_is_bounded P W url now st u a recs calls :
  handler P W url now = (mkReply st (ReportBody u a recs), calls) ->
  (sampled (imageSizeInfo a) <= 5)%nat
  /\ (sampled (imageSizeInfo a) <= imgCount a)%nat
  /\ (if (sampled (imageSizeInfo a) =? 0)%nat
      then avgSize (imageSizeInfo a) = 0%float else True).
Proof.
  intros H. apply handler_report_inv in H.
  destruct H as (response & parsed & kd & sh & ri & si & isi
                 & l1 & l2 & l3 & l4 & l5 & l6 & l7
                 & _ & _ & _ & _ & _ & _ & _ & _ & _ & (R7 & _) & H).
  apply report_images in H. destruct H as [Hisi Himg]. rewrite Hisi, Himg.
  destruct (checkImageSizes_bounds P W (cheerio_load P (data response)) u 5 l6)
    as (info & more & E & B1 & B2 & B3 & _ & Z).
  rewrite E in R7. injection R7 as -> _.
  repeat split; try lia. exact Z.
Qed.

Lemma image_sampling_is_bounded_witness :
  exists a recs calls,
    handler Demo.platform Demo.world (VString "http://shop.example/")
      "2024-01-01T00:00:00.000Z"
    = (mkReply 200 (ReportBody "http://shop.example/" a recs), calls)
    /\ sampled (imageSizeInfo a) = 1%nat
    /\ (sampled (imageSizeInfo a) <= 5)%nat
    /\ (sampled (imageSizeInfo a) <= imgCount a)%nat
    /\ (if (sampled (imageSizeInfo a) =? 0)%nat
        then avgSize (imageSizeInfo a) = 0%float else True).
Proof.
  do 3 eexists. split; [lazy; reflexivity|]. split; [reflexivity|].
  eapply (image_sampling_is_bounded Demo.platform Demo.world
            (VString "http://shop.example/") "2024-01-01T00:00:00.000Z").
  lazy. reflexivity.
Defined.

(** *** Regex matches, raw tag counts and comments *)

Lemma ciEq_common (a b c : ascii) :
  ciEq a c = true -> ciEq b c = true -> ciEq a b = true.
Proof.
  unfold ciEq. intros H1 H2.
  apply Ascii.eqb_eq in H1. apply Ascii.eqb_eq in H2. apply Ascii.eqb_eq.
  congruence.
Qed.

Lemma headingAt_openTagAt (lvl : ascii) (s : string) :
  openTagAt lvl s = None -> headingAt lvl s = None.
Proof.
  unfold openTagAt, headingAt.
  destruct (afterPrefixCi _ s); [discriminate|reflexivity].
Qed.

Lemma regex_count_le_places (lvl : ascii) (s : string) :
  forall skip,
    (List.length (matchAllFrom (headingAt lvl) skip s) <= openTagPlaces lvl s)%nat.
Proof.
  induction s as [|c s IH]; intros skip.
  - cbn. destruct skip; cbn; lia.
  - cbn [matchAllFrom openTagPlaces]. destruct skip as [|k].
    + destruct (openTagAt lvl (String c s)) eqn:E.
      * destruct (headingAt lvl (String c s)).
        -- cbn [List.length]. specialize (IH (Nat.pred n0)). lia.
        -- specialize (IH O). lia.
      * rewrite (headingAt_openTagAt _ _ E). apply IH.
    + specialize (IH k). destruct (openTagAt lvl (String c s)); lia.
Qed.

Lemma raw_count_is_places (lvl : ascii) :
  ciEq "<" "h" = false -> ciEq "<" lvl = false ->
  forall s skip,
    quietFor lvl skip s = true ->
    List.length (matchAllFrom (openTagAt lvl) skip s) = openTagPlaces lvl s.
Proof.
  intros Hh Hl s; induction s as [|c s IH]; intros skip Hq.
  - destruct skip; reflexivity.
  - cbn [matchAllFrom openTagPlaces]. destruct skip as [|k].
    + destruct (openTagAt lvl (String c s)) as [n|] eqn:E.
      * cbn [List.length]. f_equal.
        assert (n = 3%nat) as ->.
        { unfold openTagAt in E. destruct (afterPrefixCi _ _); inversion E; reflexivity. }
        apply IH. cbn [Nat.pred].
        unfold openTagAt in E. cbn [afterPrefixCi] in E.
        destruct (ciEq "<" c) eqn:E0; [|discriminate].
        destruct s as [|c1 s]; [reflexivity|].
        destruct (ciEq "h" c1) eqn:E1; [|discriminate].
        cbn [quietFor]. unfold openTagAt at 1. cbn [afterPrefixCi].
        destruct (ciEq "<" c1) eqn:F1.
        { rewrite (ciEq_common "<" "h" c1 F1 E1) in Hh. discriminate. }
        destruct s as [|c2 s]; [reflexivity|].
        destruct (ciEq lvl c2) eqn:E2; [|discriminate].
        cbn [quietFor]. unfold openTagAt at 1. cbn [afterPrefixCi].
        destruct (ciEq "<" c2) eqn:F2.
        { rewrite (ciEq_common "<" lvl c2 F2 E2) in Hl. discriminate. }
        destruct s; reflexivity.
      * apply IH. reflexivity.
    + cbn [quietFor] in Hq.
      destruct (openTagAt lvl (String c s)); [discriminate|]. apply IH, Hq.
Qed.

Lemma regex_count_le_raw_count (lvl : ascii) (html : string) :
  ciEq "<" lvl = false ->
  (List.length (regexMatches lvl html) <= rawCount lvl html)%nat.
Proof.
  intros Hl. unfold regexMatches, rawCount, matchAll.
  rewrite (raw_count_is_places lvl eq_refl Hl html O eq_refl).
  apply regex_count_le_places.
Qed.

(** X7. The raw count of opening tags [<h2] and [<h3] is never below the
    count of the regex for the same level, so the regex count never decides
    the final h2 and h3 counts: they are the maximum of the cheerio count,
    the raw count and, for h2, the brute-force count. *)
Theorem raw_count_dominates_regex_count (dollar : Cheerio) (html : string) :
  let p := detectHeadings dollar html in
  (List.length (regexMatches "2" html) <= rawCount "2" html)%nat
  /\ (List.length (regexMatches "3" html) <= rawCount "3" html)%nat
  /\ h2Count p
     = Nat.max (Nat.max (cheerioCount dollar "2")
                        (List.length (bruteMatches "2" html)))
               (rawCount "2" html)
  /\ h3Count p = Nat.max (cheerioCount dollar "3") (rawCount "3" html).
Proof.
  intros p.
  pose proof (regex_count_le_raw_count "2" html eq_refl) as L2.
  pose proof (regex_count_le_raw_count "3" html eq_refl) as L3.
  split; [exact L2|]. split; [exact L3|]. split.
  - subst p. cbn [detectHeadings h2Count]. rewrite foldBrute_max. lia.
  - subst p. cbn [detectHeadings h3Count]. lia.
Qed.

Lemma includes_false (s p : string) :
  includes s p = false ->
  startsWith s p = false
  /\ match s with String _ r => includes r p = false | EmptyString => True end.
Proof.
  destruct s as [|c r]; cbn [includes]; intros H; apply orb_false_elim in H;
    destruct H as [H1 H2]; split; auto.
Qed.

Lemma removeAll_without_comment (s : string) :
  includes s "<!--" = false -> removeAllFrom commentAt O s = s.
Proof.
  induction s as [|c r IH]; intros H; [reflexivity|].
  apply includes_false in H. destruct H as [H1 H2].
  cbn [removeAllFrom]. unfold commentAt at 1.
  unfold startsWith in H1. destruct (afterPrefix "<!--" (String c r)); [discriminate|].
  f_equal. apply IH, H2.
Qed.

(** X8. On markup that holds no [<!--], stripping the comments changes
    nothing: the brute-force pass finds the matches of the regex pass, and
    the final h1 count is the maximum of the cheerio and regex counts. *)
Theorem comment_free_markup_needs_no_brute_force (dollar : Cheerio) (html : string) :
  includes html "<!--" = false ->
  strippedHtml html = html
  /\ (forall lvl, bruteMatches lvl html = regexMatches lvl html)
  /\ h1Count (detectHeadings dollar html)
     = Nat.max (cheerioCount dollar "1") (List.length (regexMatches "1" html)).
Proof.
  intros H.
  assert (E : strippedHtml html = html) by (apply removeAll_without_comment, H).
  split; [exact E|]. split.
  - intros lvl. unfold bruteMatches. rewrite E. reflexivity.
  - cbn [detectHeadings h1Count]. rewrite foldBrute_max.
    unfold bruteMatches. rewrite E. fold (regexMatches "1" html). lia.
Qed.

Lemma comment_free_markup_needs_no_brute_force_witness :
  includes "<h1>A</h1><h1>B</h1>" "<!--" = false
  /\ strippedHtml "<h1>A</h1><h1>B</h1>" = "<h1>A</h1><h1>B</h1>"
  /\ (forall lvl, bruteMatches lvl "<h1>A</h1><h1>B</h1>"
                  = regexMatches lvl "<h1>A</h1><h1>B</h1>")
  /\ h1Count (detectHeadings (fun _ => []) "<h1>A</h1><h1>B</h1>")
     = Nat.max (cheerioCount (fun _ => []) "1")
               (List.length (regexMatches "1" "<h1>A</h1><h1>B</h1>")).
Proof.
  split; [reflexivity|].
  apply (comment_free_markup_needs_no_brute_force (fun _ => []) "<h1>A</h1><h1>B</h1>").
  reflexivity.
Defined.

(** *** The title *)

Lemma afterPrefix_isPrefix (p t s : string) :
  isPrefix t s = true -> startsWith t p = true -> startsWith s p = true.
Proof.
  unfold startsWith. revert t s; induction p as [|a p IH]; intros t s Hts H.
  - destruct s; reflexivity.
  - destruct t as [|b t]; [discriminate|].
    destruct s as [|b' s]; [discriminate|].
    cbn [isPrefix] in Hts. apply andb_prop in Hts. destruct Hts as [Hb Hts].
    apply Ascii.eqb_eq in Hb. subst b'.
    cbn [afterPrefix] in *. destruct (Ascii.eqb a b); [|discriminate].
    exact (IH t s Hts H).
Qed.

Lemma includes_isPrefix (p : string) :
  forall t s, isPrefix t s = true -> includes t p = true -> includes s p = true.
Proof.
  induction t as [|b t IH]; intros s Hts H.
  - cbn [includes] in H. rewrite orb_false_r in H.
    assert (Hs : startsWith s p = true)
      by (apply (afterPrefix_isPrefix p "" s); [reflexivity|exact H]).
    destruct s; cbn [includes]; rewrite Hs; reflexivity.
  - destruct s as [|b' s]; [discriminate|].
    cbn [includes] in *. apply orb_prop in H. destruct H as [H|H].
    + rewrite (afterPrefix_isPrefix p _ _ Hts H). reflexivity.
    + cbn [isPrefix] in Hts. apply andb_prop in Hts. destruct Hts as [_ Hts].
      rewrite (IH s Hts H). apply orb_true_r.
Qed.

Lemma isPrefix_refl (s : string) : isPrefix s s = true.
Proof.
  induction s as [|c s IH]; [reflexivity|]. cbn. rewrite Ascii.eqb_refl. exact IH.
Qed.

Lemma trimEnd_isPrefix (s : string) : isPrefix (trimEnd s) s = true.
Proof.
  induction s as [|c s IH]; [reflexivity|]. cbn [trimEnd].
  destruct (allWhiteSpace (String c s)); [reflexivity|].
  cbn. rewrite Ascii.eqb_refl. exact IH.
Qed.

Lemma removeTrailingSeparators_isPrefix (s : string) :
  isPrefix (removeTrailingSeparators s) s = true.
Proof.
  induction s as [|c s IH]; [reflexivity|]. cbn [removeTrailingSeparators].
  destruct (trailingSeparatorsAt (String c s)); [reflexivity|].
  cbn. rewrite Ascii.eqb_refl. exact IH.
Qed.

Lemma beforeFirst_isPrefix (sep s : string) : isPrefix (beforeFirst sep s) s = true.
Proof.
  induction s as [|c s IH]; cbn [beforeFirst].
  - destruct (startsWith "" sep); reflexivity.
  - destruct (startsWith (String c s) sep); [reflexivity|].
    cbn. rewrite Ascii.eqb_refl. exact IH.
Qed.

Lemma includes_trimStart (p s : string) :
  includes (trimStart s) p = true -> includes s p = true.
Proof.
  induction s as [|c s IH]; [auto|]. cbn [trimStart].
  destruct (isWhiteSpace c); [|auto].
  intros H. cbn [includes]. rewrite (IH H). apply orb_true_r.
Qed.

Lemma includes_trim (p s : string) :
  includes (trim s) p = true -> includes s p = true.
Proof.
  unfold trim. intros H. apply includes_trimStart.
  exact (includes_isPrefix p _ _ (trimEnd_isPrefix _) H).
Qed.

Lemma beforeFirst_excludes (sep : string) :
  sep <> "" -> forall s, includes (beforeFirst sep s) sep = false.
Proof.
  intros Hsep.
  assert (Hnil : includes "" sep = false).
  { destruct sep; [contradiction|reflexivity]. }
  induction s as [|c s IH]; cbn [beforeFirst].
  - destruct (startsWith "" sep); exact Hnil.
  - destruct (startsWith (String c s) sep) eqn:E; [exact Hnil|].
    cbn [includes]. rewrite IH, orb_false_r.
    destruct (startsWith (String c (beforeFirst sep s)) sep) eqn:E'; [|reflexivity].
    assert (Hp : isPrefix (String c (beforeFirst sep s)) (String c s) = true).
    { cbn. rewrite Ascii.eqb_refl. apply beforeFirst_isPrefix. }
    rewrite (afterPrefix_isPrefix sep _ _ Hp E') in E. discriminate.
Qed.

(** X9. Whatever the [title] element holds, the title the handler works
    with (reported, and mined for the keyword) never contains the text
    "SEO Audit Tool". *)
Theorem title_never_holds_the_tool_name (dollar : Cheerio) :
  includes (pageTitle dollar) "SEO Audit Tool" = false.
Proof.
  unfold pageTitle, cleanTitle.
  destruct (includes (selText (dollar "title")) "SEO Audit Tool") eqn:E; [|exact E].
  destruct (includes (trim _) "SEO Audit Tool") eqn:F; [|reflexivity].
  apply includes_trim in F.
  apply (includes_isPrefix _ _ _ (removeTrailingSeparators_isPrefix _)) in F.
  apply includes_trim in F.
  rewrite beforeFirst_excludes in F; [discriminate F|discriminate].
Qed.

(** *** Trimmed text *)

Lemma allWhiteSpace_trimEnd (s : string) :
  allWhiteSpace (trimEnd s) = allWhiteSpace s.
Proof.
  induction s as [|c s IH]; [reflexivity|]. cbn [trimEnd].
  destruct (allWhiteSpace (String c s)) eqn:E; [reflexivity|].
  cbn [allWhiteSpace] in *. rewrite IH. exact E.
Qed.

Lemma trimEnd_idempotent (s : string) : trimEnd (trimEnd s) = trimEnd s.
Proof.
  induction s as [|c s IH]; [reflexivity|]. cbn [trimEnd].
  destruct (allWhiteSpace (String c s)) eqn:E; [reflexivity|].
  cbn [trimEnd].
  replace (allWhiteSpace (String c (trimEnd s))) with false.
  - rewrite IH. reflexivity.
  - cbn [allWhiteSpace] in *. rewrite allWhiteSpace_trimEnd. symmetry. exact E.
Qed.

Lemma trimStart_trimEnd_trimStart (s : string) :
  trimStart (trimEnd (trimStart s)) = trimEnd (trimStart s).
Proof.
  induction s as [|c s IH]; [reflexivity|]. cbn [trimStart].
  destruct (isWhiteSpace c) eqn:E; [exact IH|].
  cbn [trimEnd allWhiteSpace]. rewrite E. cbn [andb trimStart]. rewrite E. reflexivity.
Qed.

Lemma trim_idempotent (s : string) : trim (trim s) = trim s.
Proof.
  unfold trim. rewrite trimStart_trimEnd_trimStart. apply trimEnd_idempotent.
Qed.

(** X10. The reported [h1Text] never begins or ends with white space:
    trimming it again changes nothing. *)
Theorem h1Text_is_trimmed (dollar : Cheerio) (html : string) :
  trim (h1Text (detectHeadings dollar html)) = h1Text (detectHeadings dollar html).
Proof.
  cbn [detectHeadings h1Text].
  destruct (regexMatches "1" html) as [|m ms]; [reflexivity|].
  destruct (_ && _); [|reflexivity].
  unfold stripTags. apply trim_idempotent.
Qed.

(** *** Candidate keywords *)

Lemma splitWsFrom_noWhiteSpace (s : string) :
  forall inRun, Forall (fun w => noWhiteSpace w = true) (splitWsFrom inRun s).
Proof.
  induction s as [|c s IH]; intros inRun; cbn [splitWsFrom].
  - repeat constructor.
  - destruct (isWhiteSpace c) eqn:E.
    + destruct inRun; [apply IH|]. constructor; [reflexivity|apply IH].
    + specialize (IH false). destruct (splitWsFrom false s) as [|w ws].
      * repeat constructor. cbn. rewrite E. reflexivity.
      * inversion IH; subst. constructor; [|assumption].
        cbn. rewrite E. assumption.
Qed.

Lemma lowerChar_idempotent (c : ascii) : lowerChar (lowerChar c) = lowerChar c.
Proof. destruct c as [[] [] [] [] [] [] [] []]; reflexivity. Qed.

Lemma isLowered_toLowerCase (s : string) : isLowered (toLowerCase s) = true.
Proof.
  induction s as [|c s IH]; [reflexivity|]. cbn.
  rewrite lowerChar_idempotent, Ascii.eqb_refl. exact IH.
Qed.

Lemma splitWsFrom_isLowered (s : string) :
  isLowered s = true ->
  forall inRun, Forall (fun w => isLowered w = true) (splitWsFrom inRun s).
Proof.
  induction s as [|c s IH]; intros H inRun; cbn [splitWsFrom].
  - repeat constructor.
  - cbn [isLowered] in H. apply andb_prop in H. destruct H as [Hc Hs].
    destruct (isWhiteSpace c).
    + destruct inRun; [apply IH, Hs|]. constructor; [reflexivity|apply IH, Hs].
    + specialize (IH Hs false). destruct (splitWsFrom false s) as [|w ws].
      * repeat constructor. cbn. rewrite Hc. reflexivity.
      * inversion IH; subst. constructor; [|assumption].
        cbn. rewrite Hc. assumption.
Qed.

(** X11. Every candidate keyword drawn from a title is longer than three
    code units, holds no white space, is in lower case, and is none of the
    stop words "and", "the", "for", "with". *)
Theorem candidate_keywords_are_clean_words (title : string) :
  Forall (fun word =>
            (3 < String.length word)%nat
            /\ noWhiteSpace word = true
            /\ isLowered word = true
            /\ ~ In word stopWords)
         (potentialKeywords title).
Proof.
  unfold potentialKeywords. apply Forall_forall. intros word Hin.
  apply filter_In in Hin. destruct Hin as [Hin Hstop].
  apply filter_In in Hin. destruct Hin as [Hin Hlen].
  split; [apply Nat.ltb_lt, Hlen|].
  pose proof (splitWsFrom_noWhiteSpace (toLowerCase title) false) as F1.
  pose proof (splitWsFrom_isLowered (toLowerCase title)
                (isLowered_toLowerCase title) false) as F2.
  rewrite Forall_forall in F1, F2.
  split; [exact (F1 word Hin)|]. split; [exact (F2 word Hin)|].
  intros Hw. apply negb_true_iff in Hstop.
  assert (E : existsb (String.eqb word) stopWords = true).
  { apply existsb_exists. exists word. split; [exact Hw|apply String.eqb_refl]. }
  rewrite E in Hstop. discriminate.
Qed.

(** *** The lines of robots.txt *)

Lemma splitChar_nonempty (sep : ascii) (s : string) : splitChar sep s <> [].
Proof.
  destruct s as [|c s]; cbn [splitChar]; [discriminate|].
  destruct (Ascii.eqb c sep); [discriminate|].
  destruct (splitChar sep s); discriminate.
Qed.

Lemma concat_splitChar (sep : ascii) (s : string) :
  String.concat (String sep EmptyString) (splitChar sep s) = s.
Proof.
  induction s as [|c s IH]; [reflexivity|]. cbn [splitChar].
  pose proof (splitChar_nonempty sep s) as Hne.
  destruct (Ascii.eqb c sep) eqn:E.
  - apply Ascii.eqb_eq in E. subst c.
    destruct (splitChar sep s) as [|w ws]; [contradiction|].
    cbn [String.concat] in *. cbn. f_equal. exact IH.
  - destruct (splitChar sep s) as [|w ws]; [contradiction|].
    destruct ws as [|w' ws]; cbn [String.concat] in *; cbn; f_equal; exact IH.
Qed.

Lemma splitChar_pieces (sep : ascii) (s : string) :
  Forall (fun l => includes l (String sep EmptyString) = false) (splitChar sep s).
Proof.
  induction s as [|c s IH]; cbn [splitChar].
  - repeat constructor.
  - destruct (Ascii.eqb c sep) eqn:E.
    + constructor; [reflexivity|exact IH].
    + destruct (splitChar sep s) as [|w ws].
      * repeat constructor. cbn [includes]. unfold startsWith.
        cbn [afterPrefix]. rewrite (Ascii.eqb_sym sep c), E. reflexivity.
      * inversion IH; subst. constructor; [|assumption].
        cbn [includes]. unfold startsWith at 1. cbn [afterPrefix].
        rewrite (Ascii.eqb_sym sep c), E. cbn [orb]. assumption.
Qed.

(** X12. The lines that [fetchRobotsTxt] filters are a faithful cut of the
    body: joined again with line feeds they give the body back, none of
    them holds a line feed, and so no disallow rule spans two lines. *)
Theorem robots_lines_partition_the_body (body : string) :
  String.concat (String "010" EmptyString) (responseLines body) = body
  /\ Forall (fun l => includes l (String "010" EmptyString) = false)
            (responseLines body)
  /\ Forall (fun l => includes l (String "010" EmptyString) = false)
            (filter (fun l => startsWith (toLowerCase l) "disallow")
                    (responseLines body)).
Proof.
  unfold responseLines. split; [apply concat_splitChar|].
  pose proof (splitChar_pieces "010" body) as F. split; [exact F|].
  rewrite Forall_forall in *. intros l Hl. apply filter_In in Hl.
  apply F. exact (proj1 Hl).
Qed.

(** *** The recommendations *)

Lemma report_recommendations P url now response parsed kd sh ri si isi u a recs :
  report P url now response parsed kd sh ri si isi = ReportBody u a recs ->
  recs = recommendationsFor a.
Proof.
  unfold report, linkSelectors. cbv zeta beta iota.
  intros H. injection H as _ <- <-. unfold recommendationsFor.
  cbn [hasMobileViewport headings imgWithAltCount imgCount keywordDensity
       structuredDataCount robotsInfo sitemapInfo hreflangInfo mixedContentInfo
       cachingInfo structuredDataValidation].
  repeat rewrite <- app_assoc. reflexivity.
Qed.

Lemma In_pushIf (msg : string) (cond : bool) (m : string) :
  In msg (pushIf cond m) <-> cond = true /\ m = msg.
Proof.
  destruct cond; cbn; intuition discriminate.
Qed.

Lemma natToString_first (n : nat) :
  natToString n = ""
  \/ exists c r, natToString n = String c r /\ isDigit c = true.
Proof.
  unfold natToString. destruct (Nat.to_uint n); cbn; eauto.
Qed.

Ltac digit_clash H n :=
  let E := fresh "E" in let D := fresh "D" in
  let c := fresh "c" in let r := fresh "r" in
  destruct (natToString_first n) as [E|(c & r & E & D)];
  rewrite E in H; cbn in H;
  [discriminate H | injection H as -> _; discriminate D].

Ltac clash :=
  match goal with
  | H : (natToString ?n ++ _)%string = _ |- _ => digit_clash H n
  | H : _ = (String _ _ ++ _)%string |- _ => cbn in H; discriminate H
  | H : (String _ _ ++ _)%string = _ |- _ => cbn in H; discriminate H
  | H : String _ _ = String _ _ |- _ => discriminate H
  end.

Ltac pick :=
  first [ solve [split; [assumption|reflexivity]]
        | solve [left; pick]
        | solve [right; pick] ].

Ltac fires :=
  unfold recommendationsFor;
  repeat rewrite in_app_iff; repeat rewrite In_pushIf;
  match goal with
  | |- context [hreflangInfo ?a] => destruct (hreflangInfo a) as [|? [|? ?]]
  end;
  cbn [In];
  (split;
   [ intros H; decompose [or and] H; clear H; try clash; try contradiction; try assumption
   | intros H ]).

Lemma recommendationsFor_fires (a : Analysis) :
  (In "Add a viewport meta tag for mobile responsiveness" (recommendationsFor a)
   <-> negb (hasMobileViewport a) = true)
  /\ (In "Add at least one H1 heading" (recommendationsFor a)
      <-> (h1Count (headings a) =? 0)%nat = true)
  /\ (In ("Add alt text to " ++ natToString (imgCount a - imgWithAltCount a)
          ++ " images")%string (recommendationsFor a)
      <-> (imgWithAltCount a <? imgCount a)%nat = true)
  /\ (In "Use your primary keyword more frequently in body copy"
         (recommendationsFor a)
      <-> (keywordDensity a <? 0.5)%float = true)
  /\ (In "Implement schema.org structured data" (recommendationsFor a)
      <-> (structuredDataCount a =? 0)%nat = true)
  /\ (In "Add a robots.txt" (recommendationsFor a)
      <-> negb (robotsExists (robotsInfo a)) = true)
  /\ (In "Add a sitemap.xml and reference it in robots.txt" (recommendationsFor a)
      <-> negb (sitemapExists (sitemapInfo a)) = true)
  /\ (In "Serve static assets with far-future Cache-Control headers"
         (recommendationsFor a)
      <-> negb (good (cachingInfo a)) = true).
Proof.
  repeat match goal with |- _ /\ _ => split end; fires; pick.
Qed.

Lemma pushIf_length (cond : bool) (m : string) : (List.length (pushIf cond m) <= 1)%nat.
Proof. destruct cond; cbn; lia. Qed.

Lemma recommendationsFor_length (a : Analysis) :
  (List.length (recommendationsFor a) <= 11)%nat.
Proof.
  unfold recommendationsFor. repeat rewrite length_app.
  repeat match goal with
         | |- context [List.length (pushIf ?c ?m)] =>
             let L := fresh "L" in
             pose proof (pushIf_length c m) as L;
             generalize dependent (List.length (pushIf c m)); intros
         end.
  destruct (hreflangInfo a) as [|? [|? ?]]; cbn [List.length]; lia.
Qed.

(** X13. In every report, each fixed recommendation is present exactly when
    its condition holds on the reported fields (no viewport for mobiles, no
    h1, keyword density below 0.5, no structured data, no robots.txt, no
    sitemap.xml, caching not good), the alt-text recommendation is present
    exactly when some image lacks alt text and counts those images, and
    there are at most eleven recommendations. *)
Theorem recommendations_fire_exactly P W url now st u a recs calls :
  handler P W url now = (mkReply st (ReportBody u a recs), calls) ->
  (In "Add a viewport meta tag for mobile responsiveness" recs
   <-> hasMobileViewport a = false)
  /\ (In "Add at least one H1 heading" recs <-> h1Count (headings a) = 0%nat)
  /\ (In ("Add alt text to " ++ natToString (imgCount a - imgWithAltCount a)
          ++ " images")%string recs
      <-> (imgWithAltCount a < imgCount a)%nat)
  /\ (In "Use your primary keyword more frequently in body copy" recs
      <-> (keywordDensity a <? 0.5)%float = true)
  /\ (In "Implement schema.org structured data" recs
      <-> structuredDataCount a = 0%nat)
  /\ (In "Add a robots.txt" recs <-> robotsExists (robotsInfo a) = false)
  /\ (In "Add a sitemap.xml and reference it in robots.txt" recs
      <-> sitemapExists (sitemapInfo a) = false)
  /\ (In "Serve static assets with far-future Cache-Control headers" recs
      <-> good (cachingInfo a) = false)
  /\ (List.length recs <= 11)%nat.
Proof.
  intros H. apply handler_report_inv in H.
  destruct H as (response & parsed & kd & sh & ri & si & isi
                 & l1 & l2 & l3 & l4 & l5 & l6 & l7
                 & _ & _ & _ & _ & _ & _ & _ & _ & _ & _ & H).
  apply report_recommendations in H. subst recs.
  destruct (recommendationsFor_fires a)
    as (F1 & F2 & F3 & F4 & F5 & F6 & F7 & F8).
  rewrite negb_true_iff in F1, F6, F7, F8.
  rewrite Nat.eqb_eq in F2, F5. rewrite Nat.ltb_lt in F3.
  repeat (split; [assumption|]). apply recommendationsFor_length.
Qed.

Lemma recommendations_fire_exactly_witness :
  exists a recs calls,
    handler Demo.platform Demo.world (VString "http://shop.example/")
      "2024-01-01T00:00:00.000Z"
    = (mkReply 200 (ReportBody "http://shop.example/" a recs), calls)
    /\ h1Count (headings a) = 0%nat
    /\ In "Add at least one H1 heading" recs
    /\ ~ In "Add a robots.txt" recs.
Proof.
  do 3 eexists. split; [lazy; reflexivity|]. split; [reflexivity|].
  match goal with
  | |- In _ ?recs /\ ~ In _ ?recs =>
      destruct (recommendations_fire_exactly Demo.platform Demo.world
                  (VString "http://shop.example/") "2024-01-01T00:00:00.000Z"
                  200 "http://shop.example/" _ recs _ eq_refl)
        as (_ & F2 & _ & _ & _ & F6 & _)
  end.
  split.
  - apply F2. reflexivity.
  - intros Hin. apply F6 in Hin. discriminate Hin.
Defined.

(** *** More on the scores *)

Lemma reported_scores P W url now st u a recs calls :
  handler P W url now = (mkReply st (ReportBody u a recs), calls) ->
  In (technicalScore a) technicalValues
  /\ In (contentScore a) contentValues
  /\ In (performanceScore a) performanceValues
  /\ overallScore a
     = calculateWeightedScore (technicalScore a) (contentScore a) (performanceScore a)
  /\ contentScore a
     = calculateContentScore (textToCodeRatio a) (h1Count (headings a))
         (h2Count (headings a)) (keywordDensity a).
Proof.
  intros H. apply handler_report_inv in H.
  destruct H as (response & parsed & kd & sh & ri & si & isi
                 & l1 & l2 & l3 & l4 & l5 & l6 & l7
                 & _ & _ & _ & _ & _ & _ & _ & _ & _ & _ & H).
  apply report_scores in H. destruct H as (Ht & Hc & Hp & Ho).
  split; [rewrite Ht; apply technical_value|].
  split; [rewrite Hc; apply content_value|].
  split; [rewrite Hp; apply performance_value|].
  split; assumption.
Qed.

Lemma weighted_exact_cap_on_scores :
  onScores (fun t c p => (0 <=? weightedExact t c p) && (weightedExact t c p <=? 76))
  = true.
Proof. vm_compute. reflexivity. Qed.

Lemma listed_scores_caps :
  Forall (fun v => 0 <= v <= 80) technicalValues
  /\ Forall (fun v => 0 <= v <= 60) contentValues.
Proof.
  split; repeat constructor; lia.
Qed.

(** X14. The caps at 100 never bind: in every report the technical score
    is at most 80, the content score at most 60, and at most 40 unless the
    page has exactly one h1, and the overall score is an integer of at
    most 76. *)
Theorem scores_stay_below_their_caps P W url now st u a recs calls :
  handler P W url now = (mkReply st (ReportBody u a recs), calls) ->
  technicalScore a <= 80
  /\ contentScore a <= 60
  /\ (h1Count (headings a) <> 1%nat -> contentScore a <= 40)
  /\ exists k, overallScore a = ofZ k /\ 0 <= k <= 76.
Proof.
  intros H. apply reported_scores in H. destruct H as (It & Ic & Ip & Ho & Hc).
  destruct listed_scores_caps as [Ft Fc]. rewrite Forall_forall in Ft, Fc.
  split; [apply (Ft _ It)|]. split; [apply (Fc _ Ic)|]. split.
  - intros Hh1. rewrite Hc. unfold calculateContentScore.
    apply Nat.eqb_neq in Hh1. rewrite Hh1.
    destruct (0.1 <? textToCodeRatio a)%float, (2 <=? h2Count (headings a))%nat,
      ((0.5 <? keywordDensity a) && (keywordDensity a <? 5))%float; cbn; lia.
  - exists (weightedExact (technicalScore a) (contentScore a) (performanceScore a)).
    rewrite Ho. split.
    + apply FloatAxioms.Leibniz.eqb_spec.
      exact (onScores_spec agrees weighted_agrees_on_scores _ _ _ It Ic Ip).
    + pose proof (onScores_spec _ weighted_exact_cap_on_scores _ _ _ It Ic Ip) as B.
      apply andb_prop in B. destruct B as [B1 B2].
      apply Z.leb_le in B1. apply Z.leb_le in B2. lia.
Qed.

Lemma scores_stay_below_their_caps_witness :
  exists a recs calls,
    handler Demo.platform Demo.world (VString "http://shop.example/")
      "2024-01-01T00:00:00.000Z"
    = (mkReply 200 (ReportBody "http://shop.example/" a recs), calls)
    /\ contentScore a = 20
    /\ technicalScore a <= 80
    /\ contentScore a <= 60
    /\ (h1Count (headings a) <> 1%nat -> contentScore a <= 40)
    /\ exists k, overallScore a = ofZ k /\ 0 <= k <= 76.
Proof.
  do 3 eexists. split; [lazy; reflexivity|]. split; [reflexivity|].
  eapply (scores_stay_below_their_caps Demo.platform Demo.world
            (VString "http://shop.example/") "2024-01-01T00:00:00.000Z").
  lazy. reflexivity.
Defined.

Lemma weightedExact_monotone (t1 t2 c1 c2 p1 p2 : Z) :
  t1 <= t2 -> c1 <= c2 -> p1 <= p2 ->
  weightedExact t1 c1 p1 <= weightedExact t2 c2 p2.
Proof.
  intros Ht Hc Hp. unfold weightedExact, roundNearest.
  apply Qfloor_resp_le. apply Qplus_le_compat; [|apply Qle_refl].
  unfold weightedSum.
  repeat apply Qplus_le_compat;
    (apply Qmult_le_l; [reflexivity|]; rewrite <- Zle_Qle; assumption).
Qed.

Lemma ofZ_monotone_on_percentages :
  onPercentagePairs (fun j k => negb (j <=? k) || (ofZ j <=? ofZ k)%float) = true.
Proof. vm_compute. reflexivity. Qed.

Lemma percentages_spec (k : Z) : 0 <= k <= 100 -> In k percentages.
Proof.
  intros H. unfold percentages. apply in_map_iff. exists (Z.to_nat k).
  split; [lia|]. apply in_seq. lia.
Qed.

Lemma reported_overall_is_percentage P W url now st u a recs calls :
  handler P W url now = (mkReply st (ReportBody u a recs), calls) ->
  exists k,
    overallScore a = ofZ k /\ 0 <= k <= 100
    /\ k = weightedExact (technicalScore a) (contentScore a) (performanceScore a).
Proof.
  intros H. apply reported_scores in H. destruct H as (It & Ic & Ip & Ho & _).
  exists (weightedExact (technicalScore a) (contentScore a) (performanceScore a)).
  rewrite Ho. split; [|split; [|reflexivity]].
  - apply FloatAxioms.Leibniz.eqb_spec.
    exact (onScores_spec agrees weighted_agrees_on_scores _ _ _ It Ic Ip).
  - pose proof (onScores_spec _ weighted_exact_in_range_on_scores _ _ _ It Ic Ip) as B.
    apply andb_prop in B. destruct B as [B1 B2].
    apply Z.leb_le in B1. apply Z.leb_le in B2. lia.
Qed.

(** X15. The overall score is monotone: of two reports, the one that is at
    least as good on the technical, content and performance scores never
    has the lower overall score. *)
Theorem overall_score_is_monotone
    P1 W1 url1 now1 st1 u1 a1 recs1 calls1
    P2 W2 url2 now2 st2 u2 a2 recs2 calls2 :
  handler P1 W1 url1 now1 = (mkReply st1 (ReportBody u1 a1 recs1), calls1) ->
  handler P2 W2 url2 now2 = (mkReply st2 (ReportBody u2 a2 recs2), calls2) ->
  technicalScore a1 <= technicalScore a2 ->
  contentScore a1 <= contentScore a2 ->
  performanceScore a1 <= performanceScore a2 ->
  (overallScore a1 <=? overallScore a2)%float = true.
Proof.
  intros H1 H2 Ht Hc Hp.
  destruct (reported_overall_is_percentage _ _ _ _ _ _ _ _ _ H1) as (k1 & E1 & B1 & K1).
  destruct (reported_overall_is_percentage _ _ _ _ _ _ _ _ _ H2) as (k2 & E2 & B2 & K2).
  rewrite E1, E2.
  assert (Hk : k1 <= k2) by (subst k1 k2; apply weightedExact_monotone; assumption).
  pose proof ofZ_monotone_on_percentages as M. unfold onPercentagePairs in M.
  rewrite forallb_forall in M. specialize (M k1 (percentages_spec k1 B1)).
  rewrite forallb_forall in M. specialize (M k2 (percentages_spec k2 B2)).
  apply Z.leb_le in Hk. rewrite Hk in M. exact M.
Qed.

Lemma overall_score_is_monotone_witness :
  exists a1 recs1 calls1 a2 recs2 calls2,
    handler Demo.platform Demo.world (VString "https://foo.example/")
      "2024-01-01T00:00:00.000Z"
    = (mkReply 200 (ReportBody "https://foo.example/" a1 recs1), calls1)
    /\ handler Demo.platform cspWorld (VString "https://foo.example/")
         "2024-01-01T00:00:00.000Z"
       = (mkReply 200 (ReportBody "https://foo.example/" a2 recs2), calls2)
    /\ technicalScore a1 = 35 /\ technicalScore a2 = 45
    /\ overallScore a1 = 34%float /\ overallScore a2 = 38%float
    /\ (overallScore a1 <=? overallScore a2)%float = true.
Proof.
  do 6 eexists. split; [lazy; reflexivity|]. split; [lazy; reflexivity|].
  split; [reflexivity|]. split; [reflexivity|].
  split; [reflexivity|]. split; [reflexivity|].
  eapply (overall_score_is_monotone
            Demo.platform Demo.world (VString "https://foo.example/")
            "2024-01-01T00:00:00.000Z" 200 "https://foo.example/" _ _ _
            Demo.platform cspWorld (VString "https://foo.example/")
            "2024-01-01T00:00:00.000Z" 200 "https://foo.example/").
  - lazy. reflexivity.
  - lazy. reflexivity.
  - cbn. lia.
  - cbn. lia.
  - cbn. lia.
Defined.

(** *** Structured data *)

Lemma report_structured_data P url now response parsed kd sh ri si isi u a recs :
  report P url now response parsed kd sh ri si isi = ReportBody u a recs ->
  (errors (structuredDataValidation a) <= structuredDataCount a)%nat.
Proof.
  unfold report, linkSelectors. cbv zeta beta iota.
  intros H. injection H as _ <- _.
  cbn [structuredDataValidation structuredDataCount].
  unfold validateStructuredData. cbn [errors]. apply filter_length_le.
Qed.

(** X16. In every report, the number of structured-data blocks with
    invalid JSON is at most the number of structured-data blocks, so a page
    without any block has no JSON error. *)
Theorem structured_data_errors_are_bounded P W url now st u a recs calls :
  handler P W url now = (mkReply st (ReportBody u a recs), calls) ->
  (errors (structuredDataValidation a) <= structuredDataCount a)%nat.
Proof.
  intros H. apply handler_report_inv in H.
  destruct H as (response & parsed & kd & sh & ri & si & isi
                 & l1 & l2 & l3 & l4 & l5 & l6 & l7
                 & _ & _ & _ & _ & _ & _ & _ & _ & _ & _ & H).
  exact (report_structured_data _ _ _ _ _ _ _ _ _ _ _ _ _ H).
Qed.

Lemma structured_data_errors_are_bounded_witness :
  exists a recs calls,
    handler Demo.platform Demo.world (VString "https://recipes.example/")
      "2024-01-01T00:00:00.000Z"
    = (mkReply 200 (ReportBody "https://recipes.example/" a recs), calls)
    /\ structuredDataCount a = 2%nat
    /\ errors (structuredDataValidation a) = 1%nat
    /\ (errors (structuredDataValidation a) <= structuredDataCount a)%nat.
Proof.
  do 3 eexists. split; [lazy; reflexivity|].
  split; [reflexivity|]. split; [reflexivity|].
  eapply (structured_data_errors_are_bounded Demo.platform Demo.world
            (VString "https://recipes.example/") "2024-01-01T00:00:00.000Z").
  lazy. reflexivity.
Defined.

(** *** The max-age directive *)

Lemma afterPrefix_append (p q s : string) :
  afterPrefix (p ++ q) s
  = match afterPrefix p s with
    | Some r => afterPrefix q r
    | None => None
    end.
Proof.
  revert s; induction p as [|a p IH]; intros s; cbn [append afterPrefix].
  - reflexivity.
  - destruct s as [|b s].
    + destruct q; reflexivity.
    + destruct (Ascii.eqb a b); [apply IH|reflexivity].
Qed.

Lemma afterPrefix_takeDigits (r : string) :
  afterPrefix (takeDigits r) r <> None.
Proof.
  induction r as [|c r IH]; cbn [takeDigits]; [discriminate|].
  destruct (isDigit c); cbn [afterPrefix]; [|discriminate].
  rewrite Ascii.eqb_refl. exact IH.
Qed.

Lemma allDigits_takeDigits (r : string) : allDigits (takeDigits r) = true.
Proof.
  induction r as [|c r IH]; cbn [takeDigits]; [reflexivity|].
  destruct (isDigit c) eqn:E; [|reflexivity]. cbn. rewrite E. exact IH.
Qed.

Lemma includes_tail (c : ascii) (r p : string) :
  includes r p = true -> includes (String c r) p = true.
Proof. intros H. cbn [includes]. rewrite H. apply orb_true_r. Qed.

Lemma maxAgeDigits_capture (s ds : string) :
  maxAgeDigits s = Some ds ->
  ds <> "" /\ allDigits ds = true /\ includes s ("max-age=" ++ ds) = true.
Proof.
  induction s as [|c s IH]; intros H.
  - cbn in H. discriminate.
  - assert (Rec : maxAgeDigits s = Some ds ->
                  ds <> "" /\ allDigits ds = true
                  /\ includes (String c s) ("max-age=" ++ ds) = true).
    { intros H'. destruct (IH H') as (A & B & C).
      split; [exact A|]. split; [exact B|]. apply includes_tail, C. }
    cbn [maxAgeDigits] in H.
    destruct (afterPrefix "max-age=" (String c s)) as [r|] eqn:E; [|exact (Rec H)].
    destruct (takeDigits r) as [|d ds'] eqn:T; [exact (Rec H)|].
    injection H as <-. split; [discriminate|]. split.
    + rewrite <- T. apply allDigits_takeDigits.
    + assert (S : startsWith (String c s) ("max-age=" ++ String d ds') = true).
      { unfold startsWith. rewrite afterPrefix_append, E, <- T.
        pose proof (afterPrefix_takeDigits r) as N.
        destruct (afterPrefix (takeDigits r) r); [reflexivity|contradiction]. }
      cbn [includes]. rewrite S. reflexivity.
Qed.

Lemma startsWith_append (s p q : string) :
  startsWith s (p ++ q) = true -> startsWith s p = true.
Proof.
  unfold startsWith. rewrite afterPrefix_append.
  destruct (afterPrefix p s); [reflexivity|discriminate].
Qed.

Lemma includes_append (p q : string) :
  forall s, includes s (p ++ q) = true -> includes s p = true.
Proof.
  induction s as [|c s IH]; cbn [includes]; intros H;
    apply orb_prop in H; destruct H as [H|H].
  - rewrite (startsWith_append _ _ _ H). reflexivity.
  - discriminate.
  - rewrite (startsWith_append _ _ _ H). reflexivity.
  - rewrite (IH H). apply orb_true_r.
Qed.

(** X17. The max-age that [evaluateCaching] reads is made of the decimal
    digits that follow an occurrence of "max-age=" in the Cache-Control
    header; without such digits the max-age is 0 and caching is not rated
    good, so caching is never rated good for a header that does not hold
    the text "max-age=". *)
Theorem max_age_is_read_from_the_header (headers : list (string * string)) :
  let info := evaluateCaching headers in
  cacheControl info = orEmpty (lookup "cache-control" headers)
  /\ match maxAgeDigits (cacheControl info) with
     | Some ds =>
         ds <> "" /\ allDigits ds = true
         /\ includes (cacheControl info) ("max-age=" ++ ds) = true
     | None => maxAgeSeconds info = 0%float /\ good info = false
     end
  /\ implb (good info) (includes (cacheControl info) "max-age=") = true.
Proof.
  intros info. subst info. unfold evaluateCaching. cbn [cacheControl maxAgeSeconds good].
  split; [reflexivity|].
  destruct (maxAgeDigits (orEmpty (lookup "cache-control" headers))) as [ds|] eqn:E.
  - destruct (maxAgeDigits_capture _ _ E) as (A & B & C).
    split; [repeat split; assumption|].
    rewrite (includes_append _ _ _ C). apply Bool.implb_true_r.
  - split; [split; reflexivity|]. reflexivity.
Qed.

(** *** The recommendations that quote a finding *)

Lemma allDigits_string_of_uint (d : Decimal.uint) :
  allDigits (NilEmpty.string_of_uint d) = true.
Proof. induction d; cbn; auto. Qed.

Lemma allDigits_natToString (n : nat) : allDigits (natToString n) = true.
Proof. apply allDigits_string_of_uint. Qed.

Lemma digits_then (d1 : string) :
  forall d2 s1 s2,
    allDigits d1 = true -> allDigits d2 = true ->
    (d1 ++ String " " s1)%string = (d2 ++ String " " s2)%string ->
    d1 = d2 /\ s1 = s2.
Proof.
  induction d1 as [|c d1 IH]; intros [|c' d2] s1 s2 D1 D2 H; cbn in *.
  - injection H as ->. split; reflexivity.
  - injection H as <- _. cbn in D2. discriminate D2.
  - injection H as -> _. cbn in D1. discriminate D1.
  - injection H as -> H.
    apply andb_prop in D1. apply andb_prop in D2.
    destruct (IH d2 s1 s2 (proj2 D1) (proj2 D2) H) as [-> ->]. split; reflexivity.
Qed.

Ltac clash_digits :=
  match goal with
  | H : (natToString ?n ++ String " " _)%string
        = (natToString ?m ++ String " " _)%string |- _ =>
      let K := fresh "K" in
      pose proof (digits_then _ _ _ _ (allDigits_natToString n)
                    (allDigits_natToString m) H) as [_ K];
      discriminate K
  | H : _ = (natToString ?n ++ _)%string |- _ => symmetry in H; digit_clash H n
  end.

Ltac quoted_in :=
  unfold recommendationsFor;
  repeat rewrite in_app_iff; repeat rewrite In_pushIf;
  match goal with
  | |- context [hreflangInfo ?a] => destruct (hreflangInfo a) as [|? [|? ?]]
  end;
  cbn [In];
  intros H; decompose [or and] H; clear H;
  try clash_digits; try contradiction; try assumption.

Lemma recommendationsFor_insecure (a : Analysis) (n : nat) :
  In (natToString n ++ " insecure (HTTP) assets found on HTTPS page")%string
     (recommendationsFor a) ->
  negb (mixedCount (mixedContentInfo a) =? 0)%nat = true.
Proof. quoted_in. Qed.

Lemma recommendationsFor_invalid_json (a : Analysis) (n : nat) :
  In (natToString n ++ " structured-data blocks contain invalid JSON")%string
     (recommendationsFor a) ->
  negb (errors (structuredDataValidation a) =? 0)%nat = true.
Proof. quoted_in. Qed.

Lemma recommendationsFor_quotes (a : Analysis) :
  (negb (mixedCount (mixedContentInfo a) =? 0)%nat = true ->
   In (natToString (mixedCount (mixedContentInfo a))
       ++ " insecure (HTTP) assets found on HTTPS page")%string
      (recommendationsFor a))
  /\ (negb (errors (structuredDataValidation a) =? 0)%nat = true ->
      In (natToString (errors (structuredDataValidation a))
          ++ " structured-data blocks contain invalid JSON")%string
         (recommendationsFor a)).
Proof.
  split; intros H; unfold recommendationsFor;
    repeat rewrite in_app_iff; repeat rewrite In_pushIf; pick.
Qed.

Lemma validateHreflang_forms (dollar : Cheerio) :
  match validateHreflang dollar with
  | NoHreflang => True
  | Hreflang n es =>
      (0 < n)%nat /\ (es = [] \/ es = ["Missing x-default hreflang"])
  end.
Proof.
  unfold validateHreflang.
  destruct (List.length _ =? 0)%nat eqn:E; [exact I|].
  apply Nat.eqb_neq in E. split; [lia|].
  destruct (existsb _ _); [left|right]; reflexivity.
Qed.

Lemma recommendationsFor_hreflang (a : Analysis) :
  (forall n es, hreflangInfo a = Hreflang n es ->
                es = [] \/ es = ["Missing x-default hreflang"]) ->
  (In "Fix hreflang issues: Missing x-default hreflang" (recommendationsFor a)
   <-> exists n, hreflangInfo a = Hreflang n ["Missing x-default hreflang"]).
Proof.
  intros F. unfold recommendationsFor.
  repeat rewrite in_app_iff; repeat rewrite In_pushIf.
  destruct (hreflangInfo a) as [|n es] eqn:E.
  - cbn [In]. split.
    + intros H; decompose [or and] H; clear H; try clash; contradiction.
    + intros [n H]. discriminate H.
  - destruct (F n es eq_refl) as [-> | ->]; cbn [In]; split.
    + intros H; decompose [or and] H; clear H; try clash; contradiction.
    + intros [m H]. discriminate H.
    + intros _. exists n. reflexivity.
    + intros _. do 7 right. left. left. reflexivity.
Qed.

Lemma report_page_checks P url now response parsed kd sh ri si isi u a recs :
  report P url now response parsed kd sh ri si isi = ReportBody u a recs ->
  hasSSL a = startsWith u "https://"
  /\ mixedContentInfo a = mixedContentCheck (cheerio_load P (data response)) u
  /\ hreflangInfo a = validateHreflang (cheerio_load P (data response)).
Proof.
  unfold report, linkSelectors. cbv zeta beta iota.
  intros H. injection H as <- <- _. cbn [hasSSL mixedContentInfo hreflangInfo].
  repeat split.
Qed.

(** X18. In every report, the mixed-content recommendation is present
    exactly when the mixed-content count is not 0, which never happens for
    a URL that does not begin with "https://"; the invalid-JSON
    recommendation is present exactly when some structured-data block
    fails to parse; and the hreflang recommendation is present exactly
    when the page has hreflang links none of which is "x-default", the only
    hreflang error there is. *)
Theorem quoting_recommendations_fire_exactly P W url now st u a recs calls :
  handler P W url now = (mkReply st (ReportBody u a recs), calls) ->
  (In (natToString (mixedCount (mixedContentInfo a))
       ++ " insecure (HTTP) assets found on HTTPS page")%string recs
   <-> mixedCount (mixedContentInfo a) <> 0%nat)
  /\ (hasSSL a = false ->
      forall n, ~ In (natToString n
                      ++ " insecure (HTTP) assets found on HTTPS page")%string recs)
  /\ (In (natToString (errors (structuredDataValidation a))
          ++ " structured-data blocks contain invalid JSON")%string recs
      <-> errors (structuredDataValidation a) <> 0%nat)
  /\ (In "Fix hreflang issues: Missing x-default hreflang" recs
      <-> exists n, hreflangInfo a = Hreflang n ["Missing x-default hreflang"])
  /\ (forall n es, hreflangInfo a = Hreflang n es ->
        (0 < n)%nat /\ (es = [] \/ es = ["Missing x-default hreflang"])).
Proof.
  intros H. apply handler_report_inv in H.
  destruct H as (response & parsed & kd & sh & ri & si & isi
                 & l1 & l2 & l3 & l4 & l5 & l6 & l7
                 & _ & _ & _ & _ & _ & _ & _ & _ & _ & _ & H).
  pose proof (report_page_checks _ _ _ _ _ _ _ _ _ _ _ _ _ H) as (Hs & Hm & Hh).
  apply report_recommendations in H. subst recs.
  destruct (recommendationsFor_quotes a) as [Q1 Q2].
  assert (Forms : forall n es, hreflangInfo a = Hreflang n es ->
            (0 < n)%nat /\ (es = [] \/ es = ["Missing x-default hreflang"])).
  { intros n es E. rewrite Hh in E.
    pose proof (validateHreflang_forms (cheerio_load P (data response))) as V.
    rewrite E in V. exact V. }
  split; [|split; [|split; [|split]]].
  - split.
    + intros I. apply recommendationsFor_insecure in I.
      apply negb_true_iff, Nat.eqb_neq in I. exact I.
    + intros N. apply Q1. apply negb_true_iff, Nat.eqb_neq. exact N.
  - intros S n I. apply recommendationsFor_insecure in I.
    rewrite Hm in I. unfold mixedContentCheck in I.
    rewrite <- Hs, S in I. cbn in I. discriminate I.
  - split.
    + intros I. apply recommendationsFor_invalid_json in I.
      apply negb_true_iff, Nat.eqb_neq in I. exact I.
    + intros N. apply Q2. apply negb_true_iff, Nat.eqb_neq. exact N.
  - apply recommendationsFor_hreflang. intros n es E. exact (proj2 (Forms n es E)).
  - exact Forms.
Qed.

Lemma quoting_recommendations_fire_exactly_witness :
  exists a recs calls,
    handler Demo.platform Demo.world (VString "http://shop.example/")
      "2024-01-01T00:00:00.000Z"
    = (mkReply 200 (ReportBody "http://shop.example/" a recs), calls)
    /\ hasSSL a = false
    /\ ~ In "1 insecure (HTTP) assets found on HTTPS page" recs.
Proof.
  do 3 eexists. split; [lazy; reflexivity|]. split; [reflexivity|].
  match goal with
  | |- ~ In _ ?recs =>
      destruct (quoting_recommendations_fire_exactly Demo.platform Demo.world
                  (VString "http://shop.example/") "2024-01-01T00:00:00.000Z"
                  200 "http://shop.example/" _ recs _ eq_refl)
        as (_ & F & _)
  end.
  exact (F eq_refl 1%nat).
Defined.

(** *** The scores and the fields they are computed from *)

Lemma report_derived_fields P url now response parsed kd sh ri si isi u a recs :
  report P url now response parsed kd sh ri si isi = ReportBody u a recs ->
  totalImages a = imgCount a
  /\ socialMediaTags a = (openGraphTags a + twitterTags a)%nat
  /\ hasSSL a = startsWith u "https://"
  /\ hasMobileViewport a = includes (viewportMeta a) "width=device-width"
  /\ timestamp a = now.
Proof.
  unfold report, linkSelectors. cbv zeta beta iota.
  intros H. injection H as <- <- _.
  cbn [totalImages imgCount socialMediaTags openGraphTags twitterTags hasSSL
       hasMobileViewport viewportMeta timestamp].
  repeat split.
Qed.

(** X19. The scores of a report can be checked against its own fields: the
    technical score is the sum of 20 for https, 15 for a mobile viewport,
    10 for a canonical link and 15 for the absence of "noindex", plus at
    most 20 for the two inputs the report does not show (resource hints
    and the Content-Security-Policy header); the content score is a
    function of the reported ratio, heading counts and keyword density;
    the performance score loses 2 points per script and stylesheet and is
    0 from 50 of them on.  The derived fields agree with their sources
    ([totalImages] with [imgCount], [socialMediaTags] with the two tag
    counts, [hasSSL] with the URL, [hasMobileViewport] with
    [viewportMeta]). *)
Theorem scores_follow_from_reported_fields P W url now st u a recs calls :
  handler P W url now = (mkReply st (ReportBody u a recs), calls) ->
  (let base := (if hasSSL a then 20 else 0)
               + (if hasMobileViewport a then 15 else 0)
               + (if JsString.truthy (canonicalUrl a) then 10 else 0)
               + (if includes (robotsMeta a) "noindex" then 0 else 15) in
   base <= technicalScore a <= base + 20)
  /\ contentScore a
     = (if (0.1 <? textToCodeRatio a)%float then 20 else 0)
       + (if (h1Count (headings a) =? 1)%nat then 20 else 0)
       + (if (2 <=? h2Count (headings a))%nat then 10 else 0)
       + (if ((0.5 <? keywordDensity a) && (keywordDensity a <? 5))%float
          then 10 else 0)
  /\ performanceScore a
     = (if (scriptCount a + cssCount a <? 50)%nat
        then 100 - 2 * Z.of_nat (scriptCount a + cssCount a) else 0)
  /\ totalImages a = imgCount a
  /\ socialMediaTags a = (openGraphTags a + twitterTags a)%nat
  /\ hasSSL a = startsWith u "https://"
  /\ hasMobileViewport a = includes (viewportMeta a) "width=device-width"
  /\ timestamp a = now.
Proof.
  intros H. apply handler_report_inv in H.
  destruct H as (response & parsed & kd & sh & ri & si & isi
                 & l1 & l2 & l3 & l4 & l5 & l6 & l7
                 & _ & _ & _ & _ & _ & _ & _ & _ & _ & _ & H).
  pose proof (report_scores _ _ _ _ _ _ _ _ _ _ _ _ _ H) as (Ht & Hc & Hp & _).
  pose proof (report_derived_fields _ _ _ _ _ _ _ _ _ _ _ _ _ H) as D.
  split; [|split; [|split; [|exact D]]].
  - cbv zeta. rewrite Ht. unfold calculateTechnicalScore.
    destruct (hasSSL a), (hasMobileViewport a), (JsString.truthy (canonicalUrl a)),
      (includes (robotsMeta a) "noindex"), (negb _),
      (flagValue hasContentSecurityPolicy sh); cbn; lia.
  - rewrite Hc. unfold calculateContentScore.
    destruct (0.1 <? textToCodeRatio a)%float, (h1Count (headings a) =? 1)%nat,
      (2 <=? h2Count (headings a))%nat,
      ((0.5 <? keywordDensity a) && (keywordDensity a <? 5))%float; reflexivity.
  - rewrite Hp. unfold calculatePerformanceScore.
    destruct (Nat.ltb_spec (scriptCount a + cssCount a) 50); lia.
Qed.

Lemma scores_follow_from_reported_fields_witness :
  exists a recs calls,
    handler Demo.platform Demo.world (VString "https://foo.example/")
      "2024-01-01T00:00:00.000Z"
    = (mkReply 200 (ReportBody "https://foo.example/" a recs), calls)
    /\ technicalScore a = 35
    /\ 35 <= technicalScore a <= 55.
Proof.
  do 3 eexists. split; [lazy; reflexivity|]. split; [reflexivity|].
  match goal with
  | |- _ <= technicalScore ?a <= _ =>
      destruct (scores_follow_from_reported_fields Demo.platform Demo.world
                  (VString "https://foo.example/") "2024-01-01T00:00:00.000Z"
                  200 "https://foo.example/" a _ _ eq_refl)
        as (F & _)
  end.
  exact F.
Defined.
